(** * BERI: the language-model layer ([src/lib/llm.ts])

    A shallow embedding of the module that owns the WebLLM engine handle:
    [checkWebGPU], [initLLM], [generate] and [resetChat].

    The module talks to three collaborators whose code is not part of the
    repository: the browser ([navigator.gpu], [Worker], [console]), the
    [@mlc-ai/web-llm] package, and the callbacks handed in by the caller.
    Their behaviour during one call is an explicit argument of the embedded
    function (a script of what they report, return or throw); what the
    module does with them is recorded, call by call, in a trace. *)

From Stdlib Require Import String Ascii List Bool PeanoNat Lia Floats DecimalString.
Import ListNotations.

Local Open Scope string_scope.

(** ** JavaScript values used by the module *)

Module JS.

(** A JS [number] is an IEEE-754 double. *)
Definition number := float.

Definition two52 : number := 4503599627370496%float.

(** [Math.round]: the integral double nearest to [x], ties towards
    [+Infinity]; [NaN], the infinities, the zeros and doubles of magnitude
    at least [2^52] (all integral) are returned unchanged. *)
Definition Math_round (x : number) : number :=
  let a := PrimFloat.abs x in
  if negb (PrimFloat.ltb a two52) then x
  else if PrimFloat.eqb x 0%float then x
  else
    (* [a] rounded to an integer (ties to even), then its floor *)
    let t := PrimFloat.sub (PrimFloat.add a two52) two52 in
    let fl := if PrimFloat.ltb a t then PrimFloat.sub t 1%float else t in
    let frac := PrimFloat.sub a fl in
    if PrimFloat.ltb x 0%float
    then PrimFloat.opp
           (if PrimFloat.ltb 0.5%float frac then PrimFloat.add fl 1%float else fl)
    else if PrimFloat.leb 0.5%float frac then PrimFloat.add fl 1%float else fl.

(** Truthiness of a string: every string but the empty one. *)
Definition truthy (s : string) : bool :=
  match s with
  | EmptyString => false
  | String _ _ => true
  end.

(** [a || b] on strings that may be [undefined] or [null] ([None]). *)
Definition or_else (a : option string) (b : string) : string :=
  match a with
  | Some s => if truthy s then s else b
  | None => b
  end.

End JS.

(** ** Errors *)

(** Whatever a collaborator throws or rejects with; only its identity
    matters to this module, which never inspects it. *)
Definition Throwable := string.

Inductive Error : Type :=
| LLM_not_initialised            (* new Error('LLM not initialised') *)
| Foreign (what : Throwable).    (* thrown by the browser, web-llm or a callback *)

Inductive result (A : Type) : Type :=
| Ok (a : A)
| Throw (e : Error).

Arguments Ok {A} a.
Arguments Throw {A} e.

(** What awaiting a collaborator's promise gives. *)
Inductive outcome (A : Type) : Type :=
| Resolves (a : A)
| Rejects (why : Throwable).

Arguments Resolves {A} a.
Arguments Rejects {A} why.

(** ** The web-llm types the module handles *)

Record InitProgressReport : Type := {
  progress : JS.number;
  text : string
}.

Record ChatOptions : Type := {
  context_window_size : JS.number
}.

Inductive Role : Type := user | assistant | system.

Record ChatCompletionMessageParam : Type := {
  role : Role;
  content : string
}.

Record ChatCompletionRequest : Type := {
  messages : list ChatCompletionMessageParam;
  max_tokens : JS.number;
  temperature : JS.number;
  stream : bool
}.

(** A streamed chunk, as far as [generate] looks into it:
    [chunk.choices[0]?.delta?.content], where every step may be missing. *)
Record Delta : Type := {
  delta_content : option string
}.

Record Choice : Type := {
  delta : option Delta
}.

Record ChatCompletionChunk : Type := {
  choices : list Choice
}.

(** The async iterable returned by a streaming [create]: the chunks it
    yields, in order, and how the iteration ends. *)
Inductive StreamEnd : Type :=
| Done
| Fails (why : Throwable).

Record ChunkStream : Type := {
  chunks : list ChatCompletionChunk;
  ending : StreamEnd
}.

(** ** The engine object *)

Inductive EngineHost : Type := WebWorkerEngine | MainThreadEngine.

(** What the module can tell about an [MLCEngineInterface] object: where it
    runs, which model it has loaded (none right after [new MLCEngine]), and
    the conversation the runtime retains between requests, which is the
    state [engine.resetChat()] clears. *)
Record Engine : Type := {
  host : EngineHost;
  loaded : option (string * ChatOptions);
  conversation : list ChatCompletionMessageParam
}.

(** [let engine: webllm.MLCEngineInterface | null] *)
Definition Handle := option Engine.

(** ** Calls made on collaborators, in program order *)

Inductive Event : Type :=
| Progress (percent : JS.number) (message : string)
| NewWorker (script : string)
| CreateWebWorkerMLCEngine (modelId logLevel : string) (chatOpts : ChatOptions)
| NewMLCEngine (logLevel : string)
| Reload (modelId : string) (chatOpts : ChatOptions)
| ConsoleLog (msg : string)
| ConsoleWarn (msg : string) (err : Error)
| ChatCompletionsCreate (request : ChatCompletionRequest)
| Token (token : string)
| EngineResetChat.

(** ** The effect monad: the module variable, exceptions, and the calls made *)

Record Run (A : Type) : Type := {
  returned : result A;
  handle : Handle;
  events : list Event
}.

Arguments returned {A} r.
Arguments handle {A} r.
Arguments events {A} r.

Definition M (A : Type) : Type := Handle -> Run A.

Definition ret {A : Type} (a : A) : M A :=
  fun h => {| returned := Ok a; handle := h; events := [] |}.

Definition throw {A : Type} (e : Error) : M A :=
  fun h => {| returned := Throw e; handle := h; events := [] |}.

Definition bind {A B : Type} (m : M A) (k : A -> M B) : M B :=
  fun h =>
    let r := m h in
    match returned r with
    | Ok a =>
        let r' := k a (handle r) in
        {| returned := returned r';
           handle := handle r';
           events := events r ++ events r' |}
    | Throw e => {| returned := Throw e; handle := handle r; events := events r |}
    end.

(** [try { body } catch (e) { handler(e) }]: what [body] did before it
    threw stays done. *)
Definition try_catch {A : Type} (body : M A) (handler : Error -> M A) : M A :=
  fun h =>
    let r := body h in
    match returned r with
    | Ok a => r
    | Throw e =>
        let r' := handler e (handle r) in
        {| returned := returned r';
           handle := handle r';
           events := events r ++ events r' |}
    end.

Definition emit (e : Event) : M unit :=
  fun h => {| returned := Ok tt; handle := h; events := [e] |}.

Definition get_engine : M Handle :=
  fun h => {| returned := Ok h; handle := h; events := [] |}.

Definition set_engine (e : Engine) : M unit :=
  fun _ => {| returned := Ok tt; handle := Some e; events := [] |}.

(** A method of the engine object that changes the object's own state. *)
Definition update_engine (f : Engine -> Engine) : M unit :=
  fun h => {| returned := Ok tt; handle := option_map f h; events := [] |}.

(** A collaborator that either returns or throws. *)
Definition may_throw (outcome : option Throwable) : M unit :=
  match outcome with
  | Some why => throw (Foreign why)
  | None => ret tt
  end.

Declare Scope js_scope.
Delimit Scope js_scope with js.
Notation "x <- m ;; k" := (bind m (fun x => k))
  (at level 61, m at next level, right associativity) : js_scope.
Notation "m ;; k" := (bind m (fun _ => k))
  (at level 61, right associativity) : js_scope.
Local Open Scope js_scope.

(** ** [checkWebGPU] *)

Inductive GPUAdapter : Type := gpu_adapter (name : string).

(** [navigator.gpu], when the browser has it: what
    [await navigator.gpu.requestAdapter()] does, which is to resolve to an
    adapter or to [null], or to throw. *)
Record GPU : Type := {
  requestAdapter : outcome (option GPUAdapter)
}.

Record Navigator : Type := {
  gpu : option GPU
}.

Definition checkWebGPU (navigator : Navigator) : result bool :=
  match gpu navigator with
  | None => Ok false
  | Some g =>
      match requestAdapter g with
      | Resolves adapter =>
          Ok (match adapter with Some _ => true | None => false end)
      | Rejects _ => Ok false
      end
  end.

(** ** Callbacks handed in by the caller *)

(** The caller's [ProgressCallback] is known to the module only through the
    calls made to it, which the model records as [Progress] events; it is
    taken to return normally. *)
Inductive ProgressCallback : Type := progress_callback.

(** The caller's [onToken]: given the fragments it has already received in
    this call and the new one, it returns ([None]) or throws. Each call is
    recorded as a [Token] event. *)
Definition TokenCallback := list string -> string -> option Throwable.

(** [onProgress?.(percent, message)] *)
Definition call_onProgress (onProgress : option ProgressCallback)
    (percent : JS.number) (message : string) : M unit :=
  match onProgress with
  | Some _ => emit (Progress percent message)
  | None => ret tt
  end.

(** [onToken?.(token)] *)
Definition call_onToken (onToken : option TokenCallback)
    (delivered : list string) (token : string) : M unit :=
  match onToken with
  | Some f => emit (Token token) ;; may_throw (f delivered token)
  | None => ret tt
  end.

(** ** The web-llm runtime during one call *)

Record MLCEngineConfig : Type := {
  initProgressCallback : InitProgressReport -> M unit;
  logLevel : string
}.

(** What the browser and web-llm do during one [initLLM]: whether
    [new Worker] and [new MLCEngine] throw, and for each of the two loads the
    progress reports it makes and whether it then rejects. *)
Record InitBehaviour : Type := {
  worker_constructor : option Throwable;
  worker_load : list InitProgressReport * option Throwable;
  engine_constructor : option Throwable;
  main_thread_load : list InitProgressReport * option Throwable
}.

(** What the engine does during one [generate]: [chat.completions.create]
    rejects or resolves to a stream, and [engine.resetChat()] resolves or
    rejects. *)
Record ChatBehaviour : Type := {
  create : outcome ChunkStream;
  reset : option Throwable
}.

(** The runtime reports through the callback it was configured with. *)
Fixpoint report_all (cb : InitProgressReport -> M unit)
    (reports : list InitProgressReport) : M unit :=
  match reports with
  | [] => ret tt
  | r :: rest => cb r ;; report_all cb rest
  end.

Definition new_Worker (rt : InitBehaviour) (script : string) : M unit :=
  emit (NewWorker script) ;;
  may_throw (worker_constructor rt).

Definition webllm_CreateWebWorkerMLCEngine (rt : InitBehaviour)
    (modelId : string) (engineConfig : MLCEngineConfig) (chatOpts : ChatOptions)
    : M Engine :=
  emit (CreateWebWorkerMLCEngine modelId (logLevel engineConfig) chatOpts) ;;
  report_all (initProgressCallback engineConfig) (fst (worker_load rt)) ;;
  may_throw (snd (worker_load rt)) ;;
  ret {| host := WebWorkerEngine;
         loaded := Some (modelId, chatOpts);
         conversation := [] |}.

Definition new_MLCEngine (rt : InitBehaviour) (engineConfig : MLCEngineConfig)
    : M Engine :=
  emit (NewMLCEngine (logLevel engineConfig)) ;;
  may_throw (engine_constructor rt) ;;
  ret {| host := MainThreadEngine; loaded := None; conversation := [] |}.

(** [engine.reload(modelId, chatOpts)] on an engine built with
    [engineConfig]. *)
Definition engine_reload (rt : InitBehaviour) (engineConfig : MLCEngineConfig)
    (modelId : string) (chatOpts : ChatOptions) : M unit :=
  emit (Reload modelId chatOpts) ;;
  report_all (initProgressCallback engineConfig) (fst (main_thread_load rt)) ;;
  may_throw (snd (main_thread_load rt)) ;;
  update_engine (fun e =>
    {| host := host e;
       loaded := Some (modelId, chatOpts);
       conversation := conversation e |}).

(** [engine.chat.completions.create(request)]: an accepted request adds its
    messages to what the runtime retains. *)
Definition engine_chat_completions_create (rt : ChatBehaviour)
    (request : ChatCompletionRequest) : M ChunkStream :=
  emit (ChatCompletionsCreate request) ;;
  match create rt with
  | Rejects why => throw (Foreign why)
  | Resolves s =>
      update_engine (fun e =>
        {| host := host e;
           loaded := loaded e;
           conversation := conversation e ++ messages request |}) ;;
      ret s
  end.

(** [engine.resetChat()] *)
Definition engine_resetChat (outcome : option Throwable) : M unit :=
  emit EngineResetChat ;;
  may_throw outcome ;;
  update_engine (fun e =>
    {| host := host e; loaded := loaded e; conversation := [] |}).

Definition console_log (msg : string) : M unit := emit (ConsoleLog msg).

Definition console_warn (msg : string) (err : Error) : M unit :=
  emit (ConsoleWarn msg err).

(** ** The module *)

Definition LF : string := String "010"%char EmptyString.

(** ** The message bubble ([src/components/MessageBubble.tsx]) *)

Module Components.

(** What a component returns: elements with their attributes and children,
    string and number children, and the values React renders as nothing
    ([false], [undefined], [null]). *)
Inductive Action : Type :=
| setShowContext (value : bool).

Inductive Attribute : Type :=
| className (value : string)
| key (index : nat)
| onClick (handler : Action)
| attribute (name value : string)
| number_attribute (name : string) (value : nat).

#[local] Set Warnings "-register-all".

Inductive JSX : Type :=
| element (tag : string) (attributes : list Attribute) (children : list JSX)
| text (s : string)
| number (n : nat)
| nothing.

(** The options passed to [toLocaleTimeString]. *)
Record TimeOptions : Type := {
  hour : string;
  minute : string
}.

Section Host.

(** [Date] and its [toLocaleTimeString(locale, options)], and
    [Number.prototype.toFixed(digits)], are the browser's. *)
Variable Date : Type.
Variable toLocaleTimeString : Date -> string -> TimeOptions -> string.
Variable toFixed : JS.number -> nat -> string.

(** Modelled from the spec: the [Message] type of ['@/types'], whose
    declaration is not among the sources. It has the fields the component
    reads; [isStreaming], [sources] and [contextChunks] may be missing, the
    citation entries are [{source, section}] and the context chunks
    [{source, section, content, score}]. *)
Record Source : Type := {
  source : string;
  section : string
}.

Record ContextChunk : Type := {
  chunk_source : string;
  chunk_section : string;
  chunk_content : string;
  score : JS.number
}.

Record Message : Type := {
  role : string;
  content : string;
  timestamp : Date;
  isStreaming : option bool;
  sources : option (list Source);
  contextChunks : option (list ContextChunk)
}.

(** [array.map((item, index) => f item index)] *)
Fixpoint map_with_index {A B : Type} (f : A -> nat -> B) (index : nat)
    (l : list A) : list B :=
  match l with
  | [] => []
  | a :: rest => f a index :: map_with_index f (S index) rest
  end.

(** [!message.isStreaming] *)
Definition not_streaming (message : Message) : bool :=
  match isStreaming message with
  | Some true => false
  | _ => true
  end.

(** The component, as a function of its prop and of the current value of
    its [showContext] state. *)
Definition MessageBubble (message : Message) (showContext : bool) : JSX :=
  let isUser := String.eqb (role message) "user" in
  let formattedTime :=
    toLocaleTimeString (timestamp message) "en-GB"
      {| hour := "2-digit"; minute := "2-digit" |} in
  element "div"
    [ className
        ("flex " ++ (if isUser then "justify-end" else "justify-start")
         ++ " animate-fade-in") ]
    [ element "div"
        [ className
            (LF ++ "          max-w-[85%] md:max-w-[70%] rounded-2xl px-4 py-3 shadow-md"
             ++ LF ++ "          "
             ++ (if isUser
                 then "bg-habs-navy text-white rounded-br-md"
                 else "bg-white text-gray-800 rounded-bl-md border border-gray-100")
             ++ LF ++ "        ") ]
        [ (* Message content *)
          element "div" [ className "whitespace-pre-wrap break-words" ]
            [ text (content message);
              match isStreaming message with
              | Some true =>
                  element "span"
                    [ className "inline-block w-2 h-4 ml-1 bg-habs-gold animate-pulse" ]
                    []
              | _ => nothing
              end ];
          (* Sources (for assistant messages) *)
          (if negb isUser then
             match sources message with
             | Some message_sources =>
                 if Nat.ltb 0 (length message_sources) && not_streaming message then
                   element "div" [ className "mt-3 pt-3 border-t border-gray-200" ]
                     [ element "p"
                         [ className "text-xs font-semibold text-gray-500 mb-2" ]
                         [ text "Sources:" ];
                       element "ul" [ className "space-y-1" ]
                         (map_with_index
                            (fun entry index =>
                               element "li"
                                 [ key index;
                                   className "text-xs text-habs-navy/70 flex items-start gap-1" ]
                                 [ element "span" [ className "text-habs-gold" ]
                                     [ text "•" ];
                                   element "span" []
                                     [ text (source entry);
                                       text " — ";
                                       text (section entry) ] ])
                            0 message_sources) ]
                 else nothing
             | None => nothing
             end
           else nothing);
          (* Context chunks toggle (for assistant messages) *)
          (if negb isUser then
             match contextChunks message with
             | Some message_contextChunks =>
                 if Nat.ltb 0 (length message_contextChunks) && not_streaming message then
                   element "div" [ className "mt-3 pt-3 border-t border-gray-200" ]
                     [ element "button"
                         [ onClick (setShowContext (negb showContext));
                           className "text-xs font-semibold text-habs-navy/60 hover:text-habs-navy transition-colors flex items-center gap-1" ]
                         [ element "svg"
                             [ className
                                 ("w-3 h-3 transition-transform "
                                  ++ (if showContext then "rotate-90" else ""));
                               attribute "fill" "none";
                               attribute "stroke" "currentColor";
                               attribute "viewBox" "0 0 24 24" ]
                             [ element "path"
                                 [ attribute "strokeLinecap" "round";
                                   attribute "strokeLinejoin" "round";
                                   number_attribute "strokeWidth" 2;
                                   attribute "d" "M9 5l7 7-7 7" ]
                                 [] ];
                           text "View context used (";
                           number (length message_contextChunks);
                           text " chunks)" ];
                       if showContext then
                         element "div" [ className "mt-2 space-y-3" ]
                           (map_with_index
                              (fun chunk index =>
                                 element "div"
                                   [ key index;
                                     className "bg-gray-50 rounded-lg p-3 border border-gray-200" ]
                                   [ element "div"
                                       [ className "flex items-center justify-between mb-2" ]
                                       [ element "span"
                                           [ className "text-xs font-semibold text-habs-navy" ]
                                           [ text (chunk_source chunk);
                                             text " — ";
                                             text (chunk_section chunk) ];
                                         element "span"
                                           [ className "text-xs text-gray-400" ]
                                           [ text (toFixed
                                                     (PrimFloat.mul (score chunk) 100%float)
                                                     0);
                                             text "% match" ] ];
                                     element "p"
                                       [ className "text-xs text-gray-600 whitespace-pre-wrap" ]
                                       [ text (chunk_content chunk) ] ])
                              0 message_contextChunks)
                       else nothing ]
                 else nothing
             | None => nothing
             end
           else nothing);
          (* Timestamp *)
          element "p"
            [ className
                ("text-xs mt-2 "
                 ++ (if isUser then "text-white/60" else "text-gray-400")) ]
            [ text formattedTime ] ] ].

End Host.

Arguments role {Date} _.
Arguments content {Date} _.
Arguments timestamp {Date} _.
Arguments isStreaming {Date} _.
Arguments sources {Date} _.
Arguments contextChunks {Date} _.
Arguments not_streaming {Date} _.
Arguments MessageBubble {Date} _ _ _ _.

(** [useState(false)]: the first value of [showContext], and what a
    click's [setShowContext(value)] makes of it. *)
Definition initial_showContext : bool := false.

Definition dispatch (a : Action) (showContext : bool) : bool :=
  match a with
  | setShowContext value => value
  end.

(** The text a rendering shows, in document order. *)
Fixpoint visible_text (j : JSX) : list string :=
  match j with
  | element _ _ children => flat_map visible_text children
  | text s => [s]
  | number n => [NilEmpty.string_of_uint (Nat.to_uint n)]
  | nothing => []
  end.

(** The click handlers a rendering carries, in document order. *)
Fixpoint handlers (j : JSX) : list Action :=
  match j with
  | element _ attributes children =>
      (flat_map (fun a => match a with onClick h => [h] | _ => [] end) attributes
       ++ flat_map handlers children)%list
  | _ => []
  end.

(** What one source line and one context chunk show. *)
Definition source_text (entry : Source) : list string :=
  ["•"; source entry; " — "; section entry].

Definition chunk_text (toFixed : JS.number -> nat -> string)
    (chunk : ContextChunk) : list string :=
  [ chunk_source chunk; " — "; chunk_section chunk;
    toFixed (PrimFloat.mul (score chunk) 100%float) 0; "% match";
    chunk_content chunk ].

(** A click on the first thing that can be clicked, if there is one. *)
Definition click (rendering : bool -> JSX) (showContext : bool) : bool :=
  match handlers (rendering showContext) with
  | a :: _ => dispatch a showContext
  | [] => showContext
  end.

(** Sample messages; the browser's formatting functions are replaced by
    stand-ins. *)
Definition sample_toLocaleTimeString : nat -> string -> TimeOptions -> string :=
  fun _ _ _ => "12:05".

Definition sample_toFixed : JS.number -> nat -> string :=
  fun _ _ => "88".

Definition sample_chunk : ContextChunk :=
  {| chunk_source := "Lunch policy";
     chunk_section := "Timing";
     chunk_content := "Lunch starts at 12:00.";
     score := 0.875%float |}.

Definition sample_question : Message nat :=
  {| role := "user";
     content := "When does lunch start?";
     timestamp := 725;
     isStreaming := None;
     sources := None;
     contextChunks := None |}.

Definition sample_answer : Message nat :=
  {| role := "assistant";
     content := "Lunch starts at 12:00.";
     timestamp := 725;
     isStreaming := Some false;
     sources := Some [ {| source := "Lunch policy"; section := "Timing" |} ];
     contextChunks := Some [ sample_chunk ] |}.

End Components.

Section LLM.

(** [import { LLM_MODEL, MAX_TOKENS, TEMPERATURE, CONTEXT_WINDOW_SIZE }
    from './constants'] *)
Variable LLM_MODEL : string.
Variable MAX_TOKENS : JS.number.
Variable TEMPERATURE : JS.number.
Variable CONTEXT_WINDOW_SIZE : JS.number.

Definition initLLM (rt : InitBehaviour) (onProgress : option ProgressCallback)
    : M unit :=
  call_onProgress onProgress 0%float "Initialising language model..." ;;
  let initProgressCallback := fun report : InitProgressReport =>
    let progress := JS.Math_round (PrimFloat.mul (progress report) 100%float) in
    call_onProgress onProgress progress (text report) in
  try_catch
    (new_Worker rt "./llm.worker.ts" ;;
     e <- webllm_CreateWebWorkerMLCEngine rt
            LLM_MODEL
            {| initProgressCallback := initProgressCallback;
               logLevel := "SILENT" |}
            {| context_window_size := CONTEXT_WINDOW_SIZE |} ;;
     set_engine e ;;
     console_log "LLM initialised with Web Worker")
    (fun workerError =>
     console_warn "Web Worker failed, falling back to main thread:" workerError ;;
     let engineConfig :=
       {| initProgressCallback := initProgressCallback;
          logLevel := "SILENT" |} in
     e <- new_MLCEngine rt engineConfig ;;
     set_engine e ;;
     engine_reload rt engineConfig
       LLM_MODEL
       {| context_window_size := CONTEXT_WINDOW_SIZE |} ;;
     console_log "LLM initialised on main thread (fallback)") ;;
  call_onProgress onProgress 100%float "Language model ready".

(** *** When the progress callback throws *)

(** What the caller's progress callback does at the two calls [initLLM]
    makes itself, before the [try] and after it: it returns ([None]) or
    throws. When web-llm calls it through [initProgressCallback], what
    becomes of an exception is web-llm's business: it shows here, if at
    all, as the rejection of the load. *)
Record ProgressOutcomes : Type := {
  at_start : option Throwable;
  at_ready : option Throwable
}.

Definition returns_normally : ProgressOutcomes :=
  {| at_start := None; at_ready := None |}.

(** [onProgress?.(percent, message)] for a callback that may throw: the
    call is made, then its exception, if any, propagates. *)
Definition call_onProgress_throwing (onProgress : option ProgressCallback)
    (outcome : option Throwable) (percent : JS.number) (message : string)
    : M unit :=
  match onProgress with
  | Some _ => emit (Progress percent message) ;; may_throw outcome
  | None => ret tt
  end.

(** [initLLM] with what the callback does at its first and at its last
    call given by [sink]. The two calls stand outside the [try], so what
    they throw is not caught. [initLLM] above is the case
    [returns_normally]. *)
Definition initLLM_sink (sink : ProgressOutcomes) (rt : InitBehaviour)
    (onProgress : option ProgressCallback) : M unit :=
  call_onProgress_throwing onProgress (at_start sink)
    0%float "Initialising language model..." ;;
  let initProgressCallback := fun report : InitProgressReport =>
    let progress := JS.Math_round (PrimFloat.mul (progress report) 100%float) in
    call_onProgress onProgress progress (text report) in
  try_catch
    (new_Worker rt "./llm.worker.ts" ;;
     e <- webllm_CreateWebWorkerMLCEngine rt
            LLM_MODEL
            {| initProgressCallback := initProgressCallback;
               logLevel := "SILENT" |}
            {| context_window_size := CONTEXT_WINDOW_SIZE |} ;;
     set_engine e ;;
     console_log "LLM initialised with Web Worker")
    (fun workerError =>
     console_warn "Web Worker failed, falling back to main thread:" workerError ;;
     let engineConfig :=
       {| initProgressCallback := initProgressCallback;
          logLevel := "SILENT" |} in
     e <- new_MLCEngine rt engineConfig ;;
     set_engine e ;;
     engine_reload rt engineConfig
       LLM_MODEL
       {| context_window_size := CONTEXT_WINDOW_SIZE |} ;;
     console_log "LLM initialised on main thread (fallback)") ;;
  call_onProgress_throwing onProgress (at_ready sink)
    100%float "Language model ready".

(** [chunk.choices[0]?.delta?.content || ''] *)
Definition chunk_token (chunk : ChatCompletionChunk) : string :=
  JS.or_else
    (match choices chunk with
     | c :: _ =>
         match delta c with
         | Some d => delta_content d
         | None => None
         end
     | [] => None
     end)
    "".

(** [for await (const chunk of asyncChunkGenerator) { ... }], with
    [fullResponse] threaded through; [delivered] are the fragments already
    handed to [onToken]. *)
Fixpoint for_await (onToken : option TokenCallback) (delivered : list string)
    (rest : list ChatCompletionChunk) (ending : StreamEnd)
    (fullResponse : string) : M string :=
  match rest with
  | [] =>
      match ending with
      | Done => ret fullResponse
      | Fails why => throw (Foreign why)
      end
  | chunk :: rest' =>
      let token := chunk_token chunk in
      if JS.truthy token then
        let fullResponse := fullResponse ++ token in
        call_onToken onToken delivered token ;;
        for_await onToken (delivered ++ [token]) rest' ending fullResponse
      else
        for_await onToken delivered rest' ending fullResponse
  end.

Definition generate (rt : ChatBehaviour) (_systemPrompt context query : string)
    (onToken : option TokenCallback) : M string :=
  engine <- get_engine ;;
  match engine with
  | None => throw LLM_not_initialised
  | Some _ =>
      let prompt :=
        "You are BERI, a school policy assistant. Answer the question using ONLY the information below. Be accurate, concise, and precise; use bullet points. Always cite the source policy."
        ++ LF ++ LF
        ++ "POLICY INFORMATION:" ++ LF
        ++ context ++ LF ++ LF
        ++ "QUESTION: " ++ query ++ LF ++ LF
        ++ "ANSWER:" in
      let messages := [ {| role := user; content := prompt |} ] in
      let fullResponse := "" in
      asyncChunkGenerator <-
        engine_chat_completions_create rt
          {| messages := messages;
             max_tokens := MAX_TOKENS;
             temperature := TEMPERATURE;
             stream := true |} ;;
      fullResponse <-
        for_await onToken [] (chunks asyncChunkGenerator)
          (ending asyncChunkGenerator) fullResponse ;;
      engine_resetChat (reset rt) ;;
      ret fullResponse
  end.

Definition resetChat (outcome : option Throwable) : M unit :=
  engine <- get_engine ;;
  match engine with
  | Some _ => engine_resetChat outcome
  | None => ret tt
  end.

(** ** Reading a run *)

(** [r], with [evs] having happened before it. *)
Definition after {A : Type} (evs : list Event) (r : Run A) : Run A :=
  {| returned := returned r; handle := handle r; events := evs ++ events r |}.

(** The non-empty fragments a stream produces, in order. *)
Definition fragments (cs : list ChatCompletionChunk) : list string :=
  filter JS.truthy (map chunk_token cs).

(** Concatenation in list order. *)
Definition join (l : list string) : string := fold_right append "" l.

(** The fragments passed to [onToken], in call order. *)
Fixpoint tokens_of (evs : list Event) : list string :=
  match evs with
  | [] => []
  | Token t :: rest => t :: tokens_of rest
  | _ :: rest => tokens_of rest
  end.

(** The (percent, message) pairs passed to [onProgress], in call order. *)
Fixpoint progress_of (evs : list Event) : list (JS.number * string) :=
  match evs with
  | [] => []
  | Progress p m :: rest => (p, m) :: progress_of rest
  | _ :: rest => progress_of rest
  end.

(** The requests submitted to the engine, in call order. *)
Fixpoint requests_of (evs : list Event) : list ChatCompletionRequest :=
  match evs with
  | [] => []
  | ChatCompletionsCreate r :: rest => r :: requests_of rest
  | _ :: rest => requests_of rest
  end.

Definition is_reset (e : Event) : bool :=
  match e with
  | EngineResetChat => true
  | _ => false
  end.

(** How many times [engine.resetChat()] was called. *)
Definition resets (evs : list Event) : nat := length (filter is_reset evs).

(** Handing fragments to a callback one by one, as the loop does: the
    fragments it was called with, and what it threw if it did. *)
Fixpoint hand_over (f : TokenCallback) (delivered frs : list string)
    : list string * option Throwable :=
  match frs with
  | [] => ([], None)
  | t :: rest =>
      match f delivered t with
      | Some why => ([t], Some why)
      | None =>
          let (ts, o) := hand_over f (delivered ++ [t]) rest in
          (t :: ts, o)
      end
  end.

Definition passed (onToken : option TokenCallback) (delivered frs : list string)
    : list string * option Throwable :=
  match onToken with
  | Some f => hand_over f delivered frs
  | None => ([], None)
  end.

(** The instruction block of the specification: a fixed directive, a
    labelled context section, a labelled question section and the answer
    marker, separated by blank lines. *)
Definition directive : string :=
  "You are BERI, a school policy assistant. Answer the question using ONLY the information below. Be accurate, concise, and precise; use bullet points. Always cite the source policy.".

Definition context_section (context : string) : string :=
  "POLICY INFORMATION:" ++ LF ++ context.

Definition question_section (query : string) : string :=
  "QUESTION: " ++ query.

Definition answer_marker : string := "ANSWER:".

Definition instruction_block (context query : string) : string :=
  directive ++ LF ++ LF ++
  context_section context ++ LF ++ LF ++
  question_section query ++ LF ++ LF ++
  answer_marker.

(** The fixed text around the two inputs. *)
Definition before_context : string :=
  directive ++ LF ++ LF ++ "POLICY INFORMATION:" ++ LF.

Definition before_query : string := LF ++ LF ++ "QUESTION: ".

Definition after_query : string := LF ++ LF ++ answer_marker.

(** The streaming request carrying that block as its only message. *)
Definition request_for (context query : string) : ChatCompletionRequest :=
  {| messages := [ {| role := user; content := instruction_block context query |} ];
     max_tokens := MAX_TOKENS;
     temperature := TEMPERATURE;
     stream := true |}.

(** The engine once the runtime has retained [ms], and once it has been
    reset. *)
Definition retaining (ms : list ChatCompletionMessageParam) (e : Engine) : Engine :=
  {| host := host e; loaded := loaded e; conversation := conversation e ++ ms |}.

Definition cleared (e : Engine) : Engine :=
  {| host := host e; loaded := loaded e; conversation := [] |}.

(** *** Reading an initialisation *)

(** A runtime report as the adapter hands it on. *)
Definition rescale (report : InitProgressReport) : JS.number * string :=
  (JS.Math_round (PrimFloat.mul (progress report) 100%float), text report).

(** The calls a list of (percent, message) pairs costs the sink, if there
    is one. *)
Definition progress_calls (onProgress : option ProgressCallback)
    (l : list (JS.number * string)) : list Event :=
  match onProgress with
  | Some _ => map (fun pm => Progress (fst pm) (snd pm)) l
  | None => []
  end.

(** Why the worker path failed, if it did. *)
Definition worker_failure (rt : InitBehaviour) : option Throwable :=
  match worker_constructor rt with
  | Some why => Some why
  | None => snd (worker_load rt)
  end.

(** The reports made on the worker path. *)
Definition worker_reports (rt : InitBehaviour) : list InitProgressReport :=
  match worker_constructor rt with
  | Some _ => []
  | None => fst (worker_load rt)
  end.

(** The reports made during the whole call: those of the worker path,
    then those of the main-thread load if it was started. *)
Definition reports_made (rt : InitBehaviour) : list InitProgressReport :=
  (worker_reports rt ++
   match worker_failure rt, engine_constructor rt with
   | Some _, None => fst (main_thread_load rt)
   | _, _ => []
   end)%list.

Definition chat_options : ChatOptions :=
  {| context_window_size := CONTEXT_WINDOW_SIZE |}.

(** The calls made on the worker path. *)
Definition worker_events (rt : InitBehaviour)
    (onProgress : option ProgressCallback) : list Event :=
  NewWorker "./llm.worker.ts"
  :: match worker_constructor rt with
     | Some _ => []
     | None =>
         CreateWebWorkerMLCEngine LLM_MODEL "SILENT" chat_options
         :: progress_calls onProgress (map rescale (fst (worker_load rt)))
     end.

Definition worker_engine : Engine :=
  {| host := WebWorkerEngine;
     loaded := Some (LLM_MODEL, chat_options);
     conversation := [] |}.

Definition unloaded_engine : Engine :=
  {| host := MainThreadEngine; loaded := None; conversation := [] |}.

Definition main_thread_engine : Engine :=
  {| host := MainThreadEngine;
     loaded := Some (LLM_MODEL, chat_options);
     conversation := [] |}.

Fixpoint nondecreasing (l : list JS.number) : bool :=
  match l with
  | a :: (b :: _) as rest => PrimFloat.leb a b && nondecreasing rest
  | _ => true
  end.

(** Every percent lies between 0 and 100. *)
Definition within_0_100 (l : list JS.number) : bool :=
  forallb (fun p => PrimFloat.leb 0%float p && PrimFloat.leb p 100%float) l.

(** *** Further readings of a run *)

Definition is_progress (ev : Event) : bool :=
  match ev with
  | Progress _ _ => true
  | _ => false
  end.

Definition is_token (ev : Event) : bool :=
  match ev with
  | Token _ => true
  | _ => false
  end.

(** What an optional callback throws, if it is there and throws. *)
Definition callback_throws (onProgress : option ProgressCallback)
    (outcome : option Throwable) : option Throwable :=
  match onProgress with
  | Some _ => outcome
  | None => None
  end.

(** [new MLCEngine(...)] *)
Definition is_new_MLCEngine (ev : Event) : bool :=
  match ev with
  | NewMLCEngine _ => true
  | _ => false
  end.

(** [engine.reload(...)] *)
Definition is_reload (ev : Event) : bool :=
  match ev with
  | Reload _ _ => true
  | _ => false
  end.

(** A call that starts a worker, builds an engine or loads a model does so
    with the module's constants. *)
Definition uses_the_constants (ev : Event) : Prop :=
  match ev with
  | NewWorker script => script = "./llm.worker.ts"
  | CreateWebWorkerMLCEngine modelId level chatOpts =>
      modelId = LLM_MODEL /\ level = "SILENT" /\
      context_window_size chatOpts = CONTEXT_WINDOW_SIZE
  | NewMLCEngine level => level = "SILENT"
  | Reload modelId chatOpts =>
      modelId = LLM_MODEL /\ context_window_size chatOpts = CONTEXT_WINDOW_SIZE
  | _ => True
  end.

(** A chunk from which [chunk.choices[0]?.delta?.content] gives nothing:
    no choice, no delta, no content, or empty content. *)
Definition carries_nothing (chunk : ChatCompletionChunk) : bool :=
  match choices chunk with
  | [] => true
  | c :: _ =>
      match delta c with
      | None => true
      | Some d =>
          match delta_content d with
          | None => true
          | Some s => negb (JS.truthy s)
          end
      end
  end.

(** The engine is the same object in the same loading state. *)
Definition same_engine (h h' : Handle) : Prop :=
  match h, h' with
  | None, None => True
  | Some e, Some e' => host e' = host e /\ loaded e' = loaded e
  | _, _ => False
  end.

(** ** Sample inputs *)

Definition chunk_of (s : string) : ChatCompletionChunk :=
  {| choices := [ {| delta := Some {| delta_content := Some s |} |} ] |}.

(** A final chunk as web-llm sends it: a choice whose delta has no content. *)
Definition chunk_without_content : ChatCompletionChunk :=
  {| choices := [ {| delta := Some {| delta_content := None |} |} ] |}.

Definition chunk_without_choices : ChatCompletionChunk := {| choices := [] |}.

Definition lunch_chunks : list ChatCompletionChunk :=
  [ chunk_of "Lunch "; chunk_of ""; chunk_of "starts "; chunk_without_choices;
    chunk_of "at 12:00."; chunk_without_content ].

Definition lunch_stream : ChatBehaviour :=
  {| create := Resolves {| chunks := lunch_chunks; ending := Done |};
     reset := None |}.

(** The same stream, breaking after its first chunk. *)
Definition broken_stream : ChatBehaviour :=
  {| create :=
       Resolves {| chunks := [ chunk_of "Lunch " ]; ending := Fails "network error" |};
     reset := None |}.

Definition quiet_onToken : TokenCallback := fun _ _ => None.

Definition ready_engine : Engine :=
  {| host := WebWorkerEngine;
     loaded := Some ("model", {| context_window_size := 2048%float |});
     conversation := [] |}.

(** The worker load reports half-way and then fails; the main-thread load
    starts over and succeeds. *)
Definition worker_crash : InitBehaviour :=
  {| worker_constructor := None;
     worker_load :=
       ([ {| progress := 0.5%float; text := "Fetching param cache" |} ],
        Some "worker crashed");
     engine_constructor := None;
     main_thread_load :=
       ([ {| progress := 0.25%float; text := "Fetching param cache" |};
          {| progress := 1%float; text := "Finish loading" |} ],
        None) |}.

(** The worker load goes through. *)
Definition worker_loads : InitBehaviour :=
  {| worker_constructor := None;
     worker_load :=
       ([ {| progress := 0.25%float; text := "Fetching param cache" |};
          {| progress := 0.5%float; text := "Loading GPU shader modules" |};
          {| progress := 1%float; text := "Finish loading" |} ],
        None);
     engine_constructor := None;
     main_thread_load := ([], None) |}.

(** No worker can be constructed, and the main-thread load fails too. *)
Definition both_fail : InitBehaviour :=
  {| worker_constructor := Some "Worker is not defined";
     worker_load := ([], None);
     engine_constructor := None;
     main_thread_load :=
       ([ {| progress := 0.25%float; text := "Fetching param cache" |} ],
        Some "out of memory") |}.

(** A progress callback that throws when told the model is ready, and one
    that throws at once. *)
Definition throws_when_ready : ProgressOutcomes :=
  {| at_start := None; at_ready := Some "progress callback failed" |}.

Definition throws_at_once : ProgressOutcomes :=
  {| at_start := Some "progress callback failed"; at_ready := None |}.

(** An [onToken] that throws on its second call. *)
Definition onToken_failing_second : TokenCallback :=
  fun delivered _ =>
    match delivered with
    | [_] => Some "render failed"
    | _ => None
    end.

(** ** The token loop *)

Lemma hand_over_quiet (f : TokenCallback) (frs delivered : list string) :
  snd (hand_over f delivered frs) = None ->
  fst (hand_over f delivered frs) = frs.
Proof.
  revert delivered.
  induction frs as [|t rest IH]; intros delivered; simpl; [reflexivity|].
  destruct (f delivered t) as [why|]; simpl; [discriminate|].
  specialize (IH (delivered ++ [t])%list).
  destruct (hand_over f (delivered ++ [t])%list rest) as [ts o]; simpl in *.
  intros Ho. rewrite (IH Ho). reflexivity.
Qed.

Lemma append_nil_r (s : string) : s ++ "" = s.
Proof. induction s as [|c s IH]; simpl; [reflexivity | now rewrite IH]. Qed.

Lemma append_assoc (s1 s2 s3 : string) : (s1 ++ s2) ++ s3 = s1 ++ (s2 ++ s3).
Proof. induction s1 as [|c s1 IH]; simpl; [reflexivity | now rewrite IH]. Qed.

Lemma join_app (l1 l2 : list string) : join (l1 ++ l2) = join l1 ++ join l2.
Proof.
  induction l1 as [|s l1 IH]; simpl; [reflexivity|].
  rewrite IH. symmetry. apply append_assoc.
Qed.

Lemma for_await_run (onToken : option TokenCallback)
    (cs : list ChatCompletionChunk) (fin : StreamEnd) :
  forall (delivered : list string) (acc : string) (h : Handle),
    for_await onToken delivered cs fin acc h =
    {| returned :=
         match snd (passed onToken delivered (fragments cs)) with
         | Some why => Throw (Foreign why)
         | None =>
             match fin with
             | Done => Ok (acc ++ join (fragments cs))
             | Fails why => Throw (Foreign why)
             end
         end;
       handle := h;
       events := map Token (fst (passed onToken delivered (fragments cs))) |}.
Proof.
  induction cs as [|c rest IH]; intros delivered acc h.
  - destruct onToken, fin; cbn; rewrite ?append_nil_r; reflexivity.
  - cbn [for_await fragments map filter].
    change (filter JS.truthy (map chunk_token rest)) with (fragments rest).
    destruct (JS.truthy (chunk_token c)) eqn:Et; [|apply IH].
    destruct onToken as [f|].
    + cbn [passed hand_over call_onToken].
      unfold bind at 1. cbn [emit may_throw bind returned handle events].
      destruct (f delivered (chunk_token c)) as [why|] eqn:Ef.
      * cbn. reflexivity.
      * cbn [ret returned handle events].
        rewrite IH. cbn [passed returned handle events].
        destruct (hand_over f (delivered ++ [chunk_token c])%list (fragments rest))
          as [ts o].
        cbn [fst snd map app join fold_right].
        destruct o, fin; try reflexivity.
        rewrite append_assoc. reflexivity.
    + cbn [passed call_onToken]. unfold bind, ret. cbn [returned handle events].
      rewrite IH. cbn [passed fst snd map app join fold_right].
      destruct fin; try reflexivity.
      rewrite append_assoc. reflexivity.
Qed.

(** ** [generate] *)

(** Unfolds the straight-line part of a run, leaving the scripts and the
    token loop in place. *)
Ltac step_run :=
  cbv beta iota zeta delta
    [generate resetChat engine_chat_completions_create engine_resetChat
     bind ret throw emit get_engine set_engine update_engine may_throw
     returned handle events option_map];
  cbn [returned handle events option_map].

(** C4: with no engine handle, [generate] fails with the
    'LLM not initialised' error and has done nothing: no request was
    submitted, [onToken] was not called, and the handle is still absent. *)
Theorem generate_without_engine
    (rt : ChatBehaviour) (systemPrompt context query : string)
    (onToken : option TokenCallback) :
  generate rt systemPrompt context query onToken None =
  {| returned := Throw LLM_not_initialised; handle := None; events := [] |}.
Proof. reflexivity. Qed.

(** C10: the first parameter of [generate] does not influence the run:
    the request submitted, the [onToken] calls, the returned string and the
    engine state are the same whatever it is. *)
Theorem generate_ignores_systemPrompt
    (rt : ChatBehaviour) (systemPrompt1 systemPrompt2 context query : string)
    (onToken : option TokenCallback) (h : Handle) :
  generate rt systemPrompt1 context query onToken h =
  generate rt systemPrompt2 context query onToken h.
Proof. reflexivity. Qed.


Lemma length_append (s1 s2 : string) :
  String.length (s1 ++ s2) = String.length s1 + String.length s2.
Proof. induction s1 as [|c s1 IH]; simpl; [reflexivity | now rewrite IH]. Qed.

Lemma substring_skip (a s : string) (m : nat) :
  substring (String.length a) m (a ++ s) = substring 0 m s.
Proof. induction a as [|c a IH]; simpl; [reflexivity | exact IH]. Qed.

Lemma substring_take (b s : string) :
  substring 0 (String.length b) (b ++ s) = b.
Proof.
  induction b as [|c b IH]; simpl.
  - destruct s; reflexivity.
  - now rewrite IH.
Qed.

Lemma instruction_block_parts (context query : string) :
  instruction_block context query =
  before_context ++ context ++ before_query ++ query ++ after_query.
Proof.
  unfold instruction_block, before_context, before_query, after_query,
    context_section, question_section.
  rewrite !append_assoc. reflexivity.
Qed.

Lemma instruction_block_literal (context query : string) :
  instruction_block context query =
  "You are BERI, a school policy assistant. Answer the question using ONLY the information below. Be accurate, concise, and precise; use bullet points. Always cite the source policy."
  ++ LF ++ LF
  ++ "POLICY INFORMATION:" ++ LF
  ++ context ++ LF ++ LF
  ++ "QUESTION: " ++ query ++ LF ++ LF
  ++ "ANSWER:".
Proof.
  unfold instruction_block, context_section, question_section, directive,
    answer_marker.
  rewrite !append_assoc. reflexivity.
Qed.

(** Every way a call on a ready engine can go. *)
Lemma generate_run (rt : ChatBehaviour) (systemPrompt context query : string)
    (onToken : option TokenCallback) (e : Engine) :
  generate rt systemPrompt context query onToken (Some e) =
  let req := request_for context query in
  match create rt with
  | Rejects why =>
      {| returned := Throw (Foreign why);
         handle := Some e;
         events := [ChatCompletionsCreate req] |}
  | Resolves strm =>
      let e1 := retaining (messages req) e in
      let p := passed onToken [] (fragments (chunks strm)) in
      match snd p, ending strm with
      | Some why, _ | None, Fails why =>
          {| returned := Throw (Foreign why);
             handle := Some e1;
             events := ChatCompletionsCreate req :: map Token (fst p) |}
      | None, Done =>
          match reset rt with
          | Some why =>
              {| returned := Throw (Foreign why);
                 handle := Some e1;
                 events := ChatCompletionsCreate req
                           :: map Token (fst p) ++ [EngineResetChat] |}
          | None =>
              {| returned := Ok (join (fragments (chunks strm)));
                 handle := Some (cleared e1);
                 events := ChatCompletionsCreate req
                           :: map Token (fst p) ++ [EngineResetChat] |}
          end
      end
  end.
Proof.
  cbv zeta. unfold request_for. rewrite instruction_block_literal.
  step_run.
  destruct (create rt) as [strm|why]; [|reflexivity].
  step_run. rewrite for_await_run. cbn [returned handle events].
  destruct (snd (passed onToken [] (fragments (chunks strm)))) as [why|];
    [cbn; rewrite ?app_nil_r; reflexivity|].
  destruct (ending strm) as [|why]; [|cbn; rewrite ?app_nil_r; reflexivity].
  destruct (reset rt) as [why|]; cbn; rewrite ?app_nil_r; reflexivity.
Qed.

Lemma tokens_of_app (l1 l2 : list Event) :
  tokens_of (l1 ++ l2) = (tokens_of l1 ++ tokens_of l2)%list.
Proof.
  induction l1 as [|ev l1 IH]; simpl; [reflexivity|].
  destruct ev; simpl; rewrite IH; reflexivity.
Qed.

Lemma tokens_of_Token (ts : list string) : tokens_of (map Token ts) = ts.
Proof. induction ts as [|t ts IH]; simpl; [reflexivity | now rewrite IH]. Qed.

Lemma resets_app (l1 l2 : list Event) :
  resets (l1 ++ l2) = resets l1 + resets l2.
Proof. unfold resets. now rewrite filter_app, length_app. Qed.

Lemma resets_Token (ts : list string) : resets (map Token ts) = 0.
Proof. induction ts as [|t ts IH]; [reflexivity | exact IH]. Qed.

Lemma fragments_nonempty (cs : list ChatCompletionChunk) :
  Forall (fun t => t <> "") (fragments cs).
Proof.
  unfold fragments. apply Forall_forall. intros t Ht.
  apply filter_In in Ht. destruct Ht as [_ Ht].
  intros ->. discriminate Ht.
Qed.

(** C1 (amended): on a ready engine, [engine.resetChat()] is called exactly
    once, as the last call made, when [generate] returns normally; when
    [create] rejects, when [onToken] throws, or when the stream throws
    part-way, the error reaches the caller and no reset has been made (the
    engine still retains the request). *)
Theorem generate_resets_only_on_completion
    (rt : ChatBehaviour) (systemPrompt context query : string)
    (onToken : option TokenCallback) (e : Engine) :
  let r := generate rt systemPrompt context query onToken (Some e) in
  (forall s, returned r = Ok s ->
     exists evs, events r = (evs ++ [EngineResetChat])%list /\ resets evs = 0) /\
  (forall why, create rt = Rejects why ->
     returned r = Throw (Foreign why) /\ resets (events r) = 0) /\
  (forall strm why,
     create rt = Resolves strm ->
     snd (passed onToken [] (fragments (chunks strm))) = Some why ->
     returned r = Throw (Foreign why) /\ resets (events r) = 0) /\
  (forall strm why,
     create rt = Resolves strm ->
     snd (passed onToken [] (fragments (chunks strm))) = None ->
     ending strm = Fails why ->
     returned r = Throw (Foreign why) /\ resets (events r) = 0 /\
     handle r = Some (retaining (messages (request_for context query)) e)).
Proof.
  cbv zeta. rewrite generate_run. cbv zeta.
  split; [|split; [|split]].
  - intros s Hs.
    destruct (create rt) as [strm|err]; [|discriminate Hs].
    destruct (snd (passed onToken [] (fragments (chunks strm)))); [discriminate Hs|].
    destruct (ending strm); [|discriminate Hs].
    destruct (reset rt); [discriminate Hs|].
    exists (ChatCompletionsCreate (request_for context query)
            :: map Token (fst (passed onToken [] (fragments (chunks strm))))).
    split; [reflexivity|].
    exact (resets_Token _).
  - intros err Hc. rewrite Hc. split; reflexivity.
  - intros strm why Hc Hp. rewrite Hc, Hp.
    split; [reflexivity | exact (resets_Token _)].
  - intros strm why Hc Hp He. rewrite Hc, Hp, He.
    split; [reflexivity|]. split; [exact (resets_Token _) | reflexivity].
Qed.

(** C2: when [generate] returns normally, the returned string is the
    concatenation, in call order, of the fragments passed to [onToken];
    none of them is empty, and they are exactly the non-empty fragments the
    stream produced, each once and in order. *)
Theorem generate_returns_concatenation
    (rt : ChatBehaviour) (systemPrompt context query : string)
    (onToken : TokenCallback) (h : Handle) (s : string) :
  returned (generate rt systemPrompt context query (Some onToken) h) = Ok s ->
  let passed_on :=
    tokens_of (events (generate rt systemPrompt context query (Some onToken) h)) in
  s = join passed_on /\
  Forall (fun t => t <> "") passed_on /\
  exists strm,
    create rt = Resolves strm /\ ending strm = Done /\
    passed_on = filter JS.truthy (map chunk_token (chunks strm)).
Proof.
  destruct h as [e|]; [|discriminate].
  rewrite generate_run. cbv zeta.
  destruct (create rt) as [strm|err] eqn:Hc; [|discriminate].
  destruct (snd (passed (Some onToken) [] (fragments (chunks strm)))) eqn:Ho;
    [discriminate|].
  destruct (ending strm) eqn:He; [|discriminate].
  destruct (reset rt); [discriminate|].
  cbn [returned events tokens_of passed] in *.
  rewrite tokens_of_app, tokens_of_Token. cbn [tokens_of].
  rewrite app_nil_r, (hand_over_quiet _ _ _ Ho).
  intros [= <-].
  split; [reflexivity|].
  split; [apply fragments_nonempty|].
  exists strm. split; [reflexivity|]. split; [exact He | reflexivity].
Qed.

(** Without an [onToken] the returned string is built the same way, and
    no fragment is handed to anyone. *)
Remark generate_without_onToken
    (rt : ChatBehaviour) (systemPrompt context query : string)
    (h : Handle) (s : string) :
  returned (generate rt systemPrompt context query None h) = Ok s ->
  tokens_of (events (generate rt systemPrompt context query None h)) = [] /\
  exists strm,
    create rt = Resolves strm /\
    s = join (filter JS.truthy (map chunk_token (chunks strm))).
Proof.
  destruct h as [e|]; [|discriminate].
  rewrite generate_run. cbv zeta.
  destruct (create rt) as [strm|why]; [|discriminate].
  cbn [passed fst snd map app].
  destruct (ending strm); [|discriminate].
  destruct (reset rt); [discriminate|].
  cbn [returned events tokens_of]. intros [= <-].
  split; [reflexivity|]. exists strm. split; reflexivity.
Qed.

(** C3: on a ready engine, the one request [generate] submits carries a
    single user message whose text is the instruction block: the directive,
    the context section holding [context] verbatim, the question section
    holding [query] verbatim, then the answer marker. Both inputs sit whole
    at fixed places between fixed text, and the request depends on nothing
    but [context] and [query]. *)
Theorem generate_submits_instruction_block
    (rt : ChatBehaviour) (systemPrompt context query : string)
    (onToken : option TokenCallback) (e : Engine) :
  let prompt := instruction_block context query in
  requests_of (events (generate rt systemPrompt context query onToken (Some e)))
  = [ {| messages := [ {| role := user; content := prompt |} ];
         max_tokens := MAX_TOKENS;
         temperature := TEMPERATURE;
         stream := true |} ] /\
  prompt = before_context ++ context ++ before_query ++ query ++ after_query /\
  substring (String.length before_context) (String.length context) prompt
  = context /\
  substring
    (String.length before_context + String.length context
     + String.length before_query)
    (String.length query) prompt
  = query /\
  (forall rt' systemPrompt' onToken' e',
     requests_of
       (events (generate rt' systemPrompt' context query onToken' (Some e')))
     = requests_of
         (events (generate rt systemPrompt context query onToken (Some e)))).
Proof.
  assert (Hreq : forall rt0 sp0 cb0 e0,
            requests_of (events (generate rt0 sp0 context query cb0 (Some e0)))
            = [request_for context query]).
  { intros rt0 sp0 cb0 e0. rewrite generate_run. cbv zeta.
    assert (Htok : forall ts tl, requests_of (map Token ts ++ tl)%list = requests_of tl).
    { induction ts as [|t ts IH]; intros tl; [reflexivity | exact (IH tl)]. }
    destruct (create rt0) as [strm|err]; [|reflexivity].
    destruct (snd (passed cb0 [] (fragments (chunks strm)))).
    - cbn [events requests_of].
      rewrite <- (app_nil_r (map Token _)), Htok. reflexivity.
    - destruct (ending strm).
      + destruct (reset rt0); cbn [events requests_of]; rewrite Htok; reflexivity.
      + cbn [events requests_of].
        rewrite <- (app_nil_r (map Token _)), Htok. reflexivity. }
  cbv zeta. split; [|split; [|split; [|split]]].
  - apply Hreq.
  - apply instruction_block_parts.
  - rewrite instruction_block_parts, substring_skip. apply substring_take.
  - rewrite instruction_block_parts.
    rewrite <- !length_append.
    replace (before_context ++ context ++ before_query ++ query ++ after_query)
      with (((before_context ++ context) ++ before_query) ++ query ++ after_query)
      by (rewrite !append_assoc; reflexivity).
    rewrite substring_skip. apply substring_take.
  - intros. rewrite !Hreq. reflexivity.
Qed.

(** ** [resetChat] *)

(** C7: with no engine, [resetChat] returns normally and does nothing,
    whatever the runtime would have done; with an engine (whose own
    [resetChat] resolves) it empties the conversation the engine retains
    and leaves the rest of it alone; calling it again changes nothing
    more. *)
Theorem resetChat_safe_and_idempotent :
  (forall outcome,
     resetChat outcome None =
     {| returned := Ok tt; handle := None; events := [] |}) /\
  (forall e,
     returned (resetChat None (Some e)) = Ok tt /\
     exists e',
       handle (resetChat None (Some e)) = Some e' /\
       conversation e' = [] /\ host e' = host e /\ loaded e' = loaded e) /\
  (forall h,
     returned (resetChat None (handle (resetChat None h))) = Ok tt /\
     handle (resetChat None (handle (resetChat None h)))
     = handle (resetChat None h)).
Proof.
  split; [|split].
  - intros outcome. reflexivity.
  - intros e. split; [reflexivity|].
    exists (cleared e). repeat split.
  - intros [e|]; split; reflexivity.
Qed.

(** ** [checkWebGPU] *)

(** C8: [checkWebGPU] always returns a boolean, and the boolean is [true]
    exactly when the browser has [navigator.gpu] and [requestAdapter]
    resolves to an adapter. *)
Theorem checkWebGPU_never_throws (navigator : Navigator) :
  exists b,
    checkWebGPU navigator = Ok b /\
    (b = true <->
     exists g a,
       gpu navigator = Some g /\ requestAdapter g = Resolves (Some a)).
Proof.
  unfold checkWebGPU.
  destruct (gpu navigator) as [g|].
  - destruct (requestAdapter g) as [[a|]|err] eqn:Hr.
    + exists true. split; [reflexivity|]. split; [|reflexivity].
      intros _. exists g, a. split; [reflexivity | exact Hr].
    + exists false. split; [reflexivity|]. split; [discriminate|].
      intros (g' & a & [= <-] & Ha). congruence.
    + exists false. split; [reflexivity|]. split; [discriminate|].
      intros (g' & a & [= <-] & Ha). congruence.
  - exists false. split; [reflexivity|]. split; [discriminate|].
    intros (g' & a & Hg & _). discriminate Hg.
Qed.

(** ** [initLLM] *)

Lemma report_all_adapter (onProgress : option ProgressCallback)
    (reports : list InitProgressReport) (h : Handle) :
  report_all
    (fun report =>
       call_onProgress onProgress
         (JS.Math_round (PrimFloat.mul (progress report) 100%float))
         (text report))
    reports h =
  {| returned := Ok tt;
     handle := h;
     events := progress_calls onProgress (map rescale reports) |}.
Proof.
  revert h. induction reports as [|r rest IH]; intros h.
  - destruct onProgress; reflexivity.
  - cbn [report_all]. unfold bind. rewrite IH.
    destruct onProgress; reflexivity.
Qed.

(** *** Running the monad step by step *)

Lemma after_nil {A : Type} (r : Run A) : after [] r = r.
Proof. destruct r; reflexivity. Qed.

Lemma after_after {A : Type} (evs1 evs2 : list Event) (r : Run A) :
  after evs1 (after evs2 r) = after (evs1 ++ evs2) r.
Proof. unfold after; cbn. now rewrite app_assoc. Qed.

Lemma bind_assoc {A B C : Type} (m : M A) (f : A -> M B) (g : B -> M C)
    (h : Handle) :
  bind (bind m f) g h = bind m (fun x => bind (f x) g) h.
Proof.
  unfold bind.
  destruct (m h) as [[a|e] h1 evs1]; cbn; [|reflexivity].
  destruct (f a h1) as [[b|e] h2 evs2]; cbn; [|reflexivity].
  destruct (g b h2) as [rc h3 evs3]; cbn. now rewrite app_assoc.
Qed.

Lemma bind_ret {A B : Type} (a : A) (k : A -> M B) (h : Handle) :
  bind (ret a) k h = k a h.
Proof. unfold bind, ret; cbn. destruct (k a h); reflexivity. Qed.

Lemma bind_throw {A B : Type} (e : Error) (k : A -> M B) (h : Handle) :
  bind (throw e) k h = throw e h.
Proof. reflexivity. Qed.

Lemma bind_emit {B : Type} (ev : Event) (k : unit -> M B) (h : Handle) :
  bind (emit ev) k h = after [ev] (k tt h).
Proof. reflexivity. Qed.

Lemma bind_set_engine {B : Type} (e : Engine) (k : unit -> M B) (h : Handle) :
  bind (set_engine e) k h = k tt (Some e).
Proof. unfold bind, set_engine; cbn. destruct (k tt (Some e)); reflexivity. Qed.

Lemma bind_may_throw {B : Type} (outcome : option Throwable)
    (k : unit -> M B) (h : Handle) :
  bind (may_throw outcome) k h =
  match outcome with
  | Some why => throw (Foreign why) h
  | None => k tt h
  end.
Proof. destruct outcome; [reflexivity | apply bind_ret]. Qed.

Lemma bind_call_onProgress {B : Type} (onProgress : option ProgressCallback)
    (percent : JS.number) (message : string) (k : unit -> M B) (h : Handle) :
  bind (call_onProgress onProgress percent message) k h =
  after (progress_calls onProgress [(percent, message)]) (k tt h).
Proof.
  destruct onProgress; cbn [call_onProgress progress_calls map fst snd].
  - apply bind_emit.
  - rewrite bind_ret. symmetry. apply after_nil.
Qed.

Lemma bind_report_all {B : Type} (onProgress : option ProgressCallback)
    (reports : list InitProgressReport) (k : unit -> M B) (h : Handle) :
  bind
    (report_all
       (fun report =>
          call_onProgress onProgress
            (JS.Math_round (PrimFloat.mul (progress report) 100%float))
            (text report))
       reports) k h =
  after (progress_calls onProgress (map rescale reports)) (k tt h).
Proof.
  unfold bind at 1. rewrite report_all_adapter. reflexivity.
Qed.

Lemma bind_try_catch {A B : Type} (body : M A) (handler : Error -> M A)
    (k : A -> M B) (h : Handle) :
  bind (try_catch body handler) k h =
  match returned (body h) with
  | Ok a => after (events (body h)) (k a (handle (body h)))
  | Throw e => after (events (body h)) (bind (handler e) k (handle (body h)))
  end.
Proof.
  unfold bind, try_catch, after.
  destruct (body h) as [[a|e] h1 evs1]; cbn; [reflexivity|].
  destruct (handler e h1) as [[a|e'] h2 evs2]; cbn; [|reflexivity].
  now rewrite app_assoc.
Qed.

Ltac unfold_runtime :=
  unfold new_Worker, webllm_CreateWebWorkerMLCEngine, new_MLCEngine,
    engine_reload, console_log, console_warn;
  cbn [initProgressCallback logLevel].

(** Brings the next operation of a run to the front. *)
Ltac flatten_run := cbv beta; repeat (rewrite bind_assoc; cbv beta).

(** Closes a goal between two fully stepped runs. *)
Ltac settle :=
  unfold after, throw, ret, emit, update_engine, bind,
    worker_engine, unloaded_engine, main_thread_engine, chat_options;
  cbn [returned handle events option_map host loaded conversation];
  repeat (rewrite <- ?app_assoc; cbn [app]);
  rewrite ?app_nil_r;
  reflexivity.

(** The [try] block, and the [catch] block up to the end of the call. *)
Lemma initLLM_run (rt : InitBehaviour) (onProgress : option ProgressCallback)
    (h : Handle) :
  initLLM rt onProgress h =
  let started :=
    (progress_calls onProgress [(0%float, "Initialising language model...")]
     ++ worker_events rt onProgress)%list in
  match worker_failure rt with
  | None =>
      {| returned := Ok tt;
         handle := Some worker_engine;
         events :=
           (started
            ++ [ConsoleLog "LLM initialised with Web Worker"]
            ++ progress_calls onProgress [(100%float, "Language model ready")])%list |}
  | Some why =>
      let fallen_back :=
        (started
         ++ [ConsoleWarn "Web Worker failed, falling back to main thread:"
               (Foreign why);
             NewMLCEngine "SILENT"])%list in
      match engine_constructor rt with
      | Some why' =>
          {| returned := Throw (Foreign why');
             handle := h;
             events := fallen_back |}
      | None =>
          let reloaded :=
            (fallen_back
             ++ [Reload LLM_MODEL chat_options]
             ++ progress_calls onProgress
                  (map rescale (fst (main_thread_load rt))))%list in
          match snd (main_thread_load rt) with
          | Some why' =>
              {| returned := Throw (Foreign why');
                 handle := Some unloaded_engine;
                 events := reloaded |}
          | None =>
              {| returned := Ok tt;
                 handle := Some main_thread_engine;
                 events :=
                   (reloaded
                    ++ [ConsoleLog "LLM initialised on main thread (fallback)"]
                    ++ progress_calls onProgress
                         [(100%float, "Language model ready")])%list |}
          end
      end
  end.
Proof.
  unfold initLLM. rewrite bind_call_onProgress, bind_try_catch.
  match goal with
  | |- context [returned (?body h)] =>
      assert (Hbody : body h =
        match worker_failure rt with
        | None =>
            {| returned := Ok tt;
               handle := Some worker_engine;
               events := (worker_events rt onProgress
                          ++ [ConsoleLog "LLM initialised with Web Worker"])%list |}
        | Some why =>
            {| returned := Throw (Foreign why);
               handle := h;
               events := worker_events rt onProgress |}
        end)
  end.
  { unfold_runtime. unfold worker_failure, worker_events.
    flatten_run. rewrite bind_emit. flatten_run. rewrite bind_may_throw.
    destruct (worker_constructor rt) as [why|]; [settle|].
    flatten_run. rewrite bind_emit. flatten_run. rewrite bind_report_all.
    flatten_run. rewrite bind_may_throw.
    destruct (snd (worker_load rt)) as [why|].
    - settle.
    - flatten_run. rewrite bind_ret. flatten_run. rewrite bind_set_engine. settle. }
  rewrite Hbody. clear Hbody. cbv zeta.
  destruct (worker_failure rt) as [why|]; cbn [returned handle events].
  2:{ destruct onProgress; cbn [progress_calls map fst snd]; settle. }
  unfold_runtime. cbv zeta. cbn [initProgressCallback logLevel].
  flatten_run. rewrite bind_emit. flatten_run. rewrite bind_emit.
  flatten_run. rewrite bind_may_throw.
  destruct (engine_constructor rt) as [why'|].
  { destruct onProgress; cbn [progress_calls map fst snd]; settle. }
  flatten_run. rewrite bind_ret. flatten_run. rewrite bind_set_engine.
  flatten_run. rewrite bind_emit. flatten_run. rewrite bind_report_all.
  flatten_run. rewrite bind_may_throw.
  destruct (snd (main_thread_load rt)) as [why'|].
  { destruct onProgress; cbn [progress_calls map fst snd]; settle. }
  destruct onProgress; cbn [progress_calls call_onProgress map fst snd]; settle.
Qed.

Lemma progress_of_app (l1 l2 : list Event) :
  progress_of (l1 ++ l2) = (progress_of l1 ++ progress_of l2)%list.
Proof.
  induction l1 as [|ev l1 IH]; simpl; [reflexivity|].
  destruct ev; simpl; rewrite IH; reflexivity.
Qed.

Lemma progress_of_calls (cb : ProgressCallback) (l : list (JS.number * string)) :
  progress_of (progress_calls (Some cb) l) = l.
Proof.
  induction l as [|[p m] l IH]; simpl; [reflexivity|].
  f_equal. exact IH.
Qed.

Lemma progress_of_worker_events (rt : InitBehaviour) (cb : ProgressCallback) :
  progress_of (worker_events rt (Some cb)) = map rescale (worker_reports rt).
Proof.
  unfold worker_events, worker_reports.
  destruct (worker_constructor rt); [reflexivity|].
  cbn [progress_of]. apply progress_of_calls.
Qed.

Lemma nondecreasing_up_to_100 (ps : list JS.number) :
  forall a,
    PrimFloat.leb a 100%float = true ->
    nondecreasing (a :: ps) = true ->
    within_0_100 ps = true ->
    nondecreasing (a :: ps ++ [100%float]) = true.
Proof.
  induction ps as [|p ps IH]; intros a Ha Hnd Hin.
  - cbn. now rewrite Ha.
  - cbn [nondecreasing app] in *.
    apply andb_true_iff in Hnd. destruct Hnd as [Hap Hnd].
    cbn [within_0_100 forallb] in Hin.
    apply andb_true_iff in Hin. destruct Hin as [Hp Hin].
    apply andb_true_iff in Hp. destruct Hp as [_ Hp].
    rewrite Hap. cbn [andb]. apply IH; assumption.
Qed.

Lemma nondecreasing_from_0_to_100 (ps : list JS.number) :
  nondecreasing ps = true ->
  within_0_100 ps = true ->
  nondecreasing (0%float :: ps ++ [100%float]) = true.
Proof.
  intros Hnd Hin.
  destruct ps as [|p ps]; [reflexivity|].
  cbn [within_0_100 forallb] in Hin.
  apply andb_true_iff in Hin. destruct Hin as [Hp Hin].
  apply andb_true_iff in Hp. destruct Hp as [H0 Hp].
  change (PrimFloat.leb 0%float p
          && nondecreasing (p :: ps ++ [100%float]) = true).
  rewrite H0. cbn [andb].
  apply nondecreasing_up_to_100; assumption.
Qed.

(** C5 (amended): when [initLLM] succeeds, the progress sink has received
    (0, 'Initialising language model...') first and
    (100, 'Language model ready') last, and in between one event per runtime
    report, in the order made (worker path, then main-thread load), each
    carrying [Math.round(progress * 100)] and the report's text. The
    percents are non-decreasing whenever those of the reports are
    non-decreasing and lie between 0 and 100. *)
Theorem initLLM_progress_sequence
    (rt : InitBehaviour) (onProgress : ProgressCallback) (h : Handle) :
  returned (initLLM rt (Some onProgress) h) = Ok tt ->
  let delivered := progress_of (events (initLLM rt (Some onProgress) h)) in
  let reported := map rescale (reports_made rt) in
  delivered =
    ((0%float, "Initialising language model...") :: reported
     ++ [(100%float, "Language model ready")])%list /\
  (nondecreasing (map fst reported) = true ->
   within_0_100 (map fst reported) = true ->
   nondecreasing (map fst delivered) = true).
Proof.
  intros Hok. cbv zeta.
  assert (Hseq :
    progress_of (events (initLLM rt (Some onProgress) h)) =
    ((0%float, "Initialising language model...") :: map rescale (reports_made rt)
     ++ [(100%float, "Language model ready")])%list).
  { revert Hok. rewrite initLLM_run. cbv zeta. unfold reports_made.
    destruct (worker_failure rt) as [why|].
    - destruct (engine_constructor rt) as [why'|]; [discriminate|].
      destruct (snd (main_thread_load rt)) as [why'|]; [discriminate|].
      intros _. cbn [events].
      rewrite !progress_of_app, !progress_of_calls, progress_of_worker_events.
      cbn [progress_of app]. rewrite app_nil_r, map_app, <- !app_assoc.
      reflexivity.
    - intros _. cbn [events].
      rewrite !progress_of_app, !progress_of_calls, progress_of_worker_events.
      cbn [progress_of app]. rewrite app_nil_r. reflexivity. }
  split; [exact Hseq|].
  intros Hnd Hin. rewrite Hseq.
  cbn [map fst]. rewrite map_app. cbn [map fst].
  apply nondecreasing_from_0_to_100; assumption.
Qed.

(** C9: when the worker path fails, the main-thread engine is built and
    its load fails, [initLLM] throws the load's error but the handle is left
    holding the new, unloaded engine, whatever it held before; a later
    [generate] does not fail with the 'LLM not initialised' error. *)
Theorem initLLM_failure_leaves_unloaded_engine
    (rt : InitBehaviour) (onProgress : option ProgressCallback) (h : Handle)
    (why why' : Throwable) :
  worker_failure rt = Some why ->
  engine_constructor rt = None ->
  snd (main_thread_load rt) = Some why' ->
  let r := initLLM rt onProgress h in
  returned r = Throw (Foreign why') /\
  handle r = Some {| host := MainThreadEngine;
                     loaded := None;
                     conversation := [] |} /\
  (forall chat systemPrompt context query onToken,
     returned (generate chat systemPrompt context query onToken (handle r))
     <> Throw LLM_not_initialised).
Proof.
  intros Hw Hc Hl. cbv zeta. rewrite initLLM_run. cbv zeta.
  rewrite Hw, Hc, Hl. cbn [returned handle].
  split; [reflexivity|]. split; [reflexivity|].
  intros chat systemPrompt context query onToken.
  rewrite generate_run. cbv zeta.
  destruct (create chat) as [strm|what]; [|discriminate].
  destruct (snd (passed onToken [] (fragments (chunks strm)))); [discriminate|].
  destruct (ending strm); [|discriminate].
  destruct (reset chat); discriminate.
Qed.

(** *** [initLLM] with a callback that may throw *)

Lemma bind_call_onProgress_throwing {B : Type}
    (onProgress : option ProgressCallback) (outcome : option Throwable)
    (percent : JS.number) (message : string) (k : unit -> M B) (h : Handle) :
  bind (call_onProgress_throwing onProgress outcome percent message) k h =
  after (progress_calls onProgress [(percent, message)])
    match callback_throws onProgress outcome with
    | Some w => throw (Foreign w) h
    | None => k tt h
    end.
Proof.
  destruct onProgress;
    cbn [call_onProgress_throwing callback_throws progress_calls map fst snd].
  - rewrite bind_assoc, bind_emit, bind_may_throw.
    destruct outcome; reflexivity.
  - rewrite bind_ret. symmetry. apply after_nil.
Qed.

(** Ending a run with a call that may throw, against ending it with one
    that does not. *)
Lemma bind_last_call {A : Type} (m : M A)
    (onProgress : option ProgressCallback) (outcome : option Throwable)
    (percent : JS.number) (message : string) (h : Handle) :
  bind m (fun _ => call_onProgress_throwing onProgress outcome percent message) h =
  let r := bind m (fun _ => call_onProgress onProgress percent message) h in
  match returned r, callback_throws onProgress outcome with
  | Ok _, Some w =>
      {| returned := Throw (Foreign w); handle := handle r; events := events r |}
  | _, _ => r
  end.
Proof.
  unfold bind. destruct (m h) as [[a|e] h1 evs1]; cbn [returned handle events].
  - destruct onProgress as [cb|], outcome as [w|]; reflexivity.
  - destruct (callback_throws onProgress outcome); reflexivity.
Qed.

(** A run with a callback that may throw, from the run with one that
    returns normally. *)
Lemma initLLM_sink_run (sink : ProgressOutcomes) (rt : InitBehaviour)
    (onProgress : option ProgressCallback) (h : Handle) :
  initLLM_sink sink rt onProgress h =
  match callback_throws onProgress (at_start sink) with
  | Some w =>
      {| returned := Throw (Foreign w);
         handle := h;
         events :=
           progress_calls onProgress
             [(0%float, "Initialising language model...")] |}
  | None =>
      let r := initLLM rt onProgress h in
      match returned r, callback_throws onProgress (at_ready sink) with
      | Ok _, Some w =>
          {| returned := Throw (Foreign w);
             handle := handle r;
             events := events r |}
      | _, _ => r
      end
  end.
Proof.
  unfold initLLM_sink, initLLM.
  rewrite bind_call_onProgress_throwing, bind_call_onProgress.
  destruct (callback_throws onProgress (at_start sink)) as [w|].
  - unfold after, throw. cbn [returned handle events].
    now rewrite app_nil_r.
  - cbv beta. rewrite bind_last_call. cbv zeta.
    match goal with
    | |- context [returned ?run] =>
        destruct run as [[[]|e] h1 evs1]
    end;
      unfold after; cbn [returned handle events];
      destruct (callback_throws onProgress (at_ready sink)); reflexivity.
Qed.

Lemma initLLM_sink_returns_normally (rt : InitBehaviour)
    (onProgress : option ProgressCallback) (h : Handle) :
  initLLM_sink returns_normally rt onProgress h = initLLM rt onProgress h.
Proof.
  rewrite initLLM_sink_run.
  assert (Hn : callback_throws onProgress None = None)
    by (destruct onProgress; reflexivity).
  cbn [returns_normally at_start at_ready]. rewrite Hn. cbv zeta.
  destruct (returned (initLLM rt onProgress h)); reflexivity.
Qed.

(** Once the first call has returned, the callback changes the run only by
    what its last call throws. *)
Lemma initLLM_sink_after_start (sink : ProgressOutcomes) (rt : InitBehaviour)
    (onProgress : option ProgressCallback) (h : Handle) :
  callback_throws onProgress (at_start sink) = None ->
  events (initLLM_sink sink rt onProgress h) = events (initLLM rt onProgress h) /\
  handle (initLLM_sink sink rt onProgress h) = handle (initLLM rt onProgress h) /\
  returned (initLLM_sink sink rt onProgress h) =
  match returned (initLLM rt onProgress h),
        callback_throws onProgress (at_ready sink) with
  | Ok _, Some w => Throw (Foreign w)
  | res, _ => res
  end.
Proof.
  intros Hstart. rewrite initLLM_sink_run, Hstart. cbv zeta.
  destruct (returned (initLLM rt onProgress h)) as [[]|e] eqn:Hr;
    destruct (callback_throws onProgress (at_ready sink));
    cbn [returned handle events]; rewrite ?Hr; repeat split.
Qed.

(** C6 (amended): in every call that gets to try the worker and sees it
    fail, [initLLM] warns and builds a main-thread engine with the same
    adapter and log level; if the constructor returns, it asks it to load
    the same model with the same options as the worker was asked, and the
    reports of that load reach the callback through the same adapter. If
    that load succeeds, the handle holds the loaded main-thread engine, the
    last call made is the progress event at 100, and [initLLM] returns
    normally when the callback returns from that call; when the callback
    throws there, [initLLM] throws what it threw. *)
Theorem initLLM_sink_falls_back
    (sink : ProgressOutcomes) (rt : InitBehaviour)
    (onProgress : option ProgressCallback) (h : Handle) (why : Throwable) :
  callback_throws onProgress (at_start sink) = None ->
  worker_failure rt = Some why ->
  let r := initLLM_sink sink rt onProgress h in
  let attempted :=
    (progress_calls onProgress [(0%float, "Initialising language model...")]
     ++ NewWorker "./llm.worker.ts"
        :: match worker_constructor rt with
           | Some _ => []
           | None =>
               CreateWebWorkerMLCEngine LLM_MODEL "SILENT" chat_options
               :: progress_calls onProgress (map rescale (fst (worker_load rt)))
           end
     ++ [ConsoleWarn "Web Worker failed, falling back to main thread:"
           (Foreign why);
         NewMLCEngine "SILENT"])%list in
  let loading :=
    (attempted
     ++ Reload LLM_MODEL chat_options
        :: progress_calls onProgress (map rescale (fst (main_thread_load rt))))%list in
  match engine_constructor rt, snd (main_thread_load rt) with
  | Some why', _ =>
      events r = attempted /\
      returned r = Throw (Foreign why') /\
      handle r = h
  | None, Some why' =>
      events r = loading /\
      returned r = Throw (Foreign why')
  | None, None =>
      events r =
        (loading
         ++ [ConsoleLog "LLM initialised on main thread (fallback)"]
         ++ progress_calls onProgress [(100%float, "Language model ready")])%list /\
      handle r = Some {| host := MainThreadEngine;
                         loaded := Some (LLM_MODEL, chat_options);
                         conversation := [] |} /\
      returned r =
        match callback_throws onProgress (at_ready sink) with
        | None => Ok tt
        | Some w => Throw (Foreign w)
        end /\
      (forall cb, onProgress = Some cb ->
         exists earlier,
           events r = (earlier ++ [Progress 100%float "Language model ready"])%list)
  end.
Proof.
  intros Hstart Hw. cbv zeta.
  destruct (initLLM_sink_after_start sink rt onProgress h Hstart)
    as (-> & -> & ->).
  rewrite initLLM_run. cbv zeta. rewrite Hw.
  unfold worker_events.
  destruct (engine_constructor rt) as [why'|];
    [|destruct (snd (main_thread_load rt)) as [why'|]];
    cbn [returned handle events].
  - split; [|destruct (callback_throws onProgress (at_ready sink));
             split; reflexivity].
    rewrite <- ?app_assoc. cbn [app]. rewrite <- ?app_assoc. reflexivity.
  - split; [|destruct (callback_throws onProgress (at_ready sink));
             reflexivity].
    rewrite <- ?app_assoc. cbn [app]. rewrite <- ?app_assoc. reflexivity.
  - split; [|split; [reflexivity|split]].
    + rewrite <- ?app_assoc. cbn [app]. rewrite <- ?app_assoc. reflexivity.
    + destruct (callback_throws onProgress (at_ready sink)); reflexivity.
    + intros cb ->. cbn [progress_calls map fst snd].
      eexists. rewrite !app_assoc. reflexivity.
Qed.

(** ** Further properties of [initLLM] *)

Lemma existsb_progress_calls (p : Event -> bool)
    (onProgress : option ProgressCallback) (l : list (JS.number * string)) :
  (forall pc m, p (Progress pc m) = false) ->
  existsb p (progress_calls onProgress l) = false.
Proof.
  intros Hp. destruct onProgress; [|reflexivity].
  induction l as [|[pc m] l IH]; [reflexivity|].
  cbn [progress_calls map existsb fst snd]. rewrite Hp. exact IH.
Qed.

Lemma events_after_start_is_new_MLCEngine (rt : InitBehaviour)
    (onProgress : option ProgressCallback) :
  existsb is_new_MLCEngine (worker_events rt onProgress) = false /\
  existsb is_reload (worker_events rt onProgress) = false.
Proof.
  unfold worker_events. destruct (worker_constructor rt); [split; reflexivity|].
  cbn [existsb is_new_MLCEngine is_reload orb].
  split; apply existsb_progress_calls; reflexivity.
Qed.

(** X1: in every run of [initLLM], whatever the callback does,
    [new MLCEngine] is called exactly when the worker path was tried and
    failed, and [engine.reload] exactly when moreover the constructor
    returned; a worker that loads triggers neither. *)
Theorem initLLM_sink_main_thread_calls
    (sink : ProgressOutcomes) (rt : InitBehaviour)
    (onProgress : option ProgressCallback) (h : Handle) :
  let r := initLLM_sink sink rt onProgress h in
  existsb is_new_MLCEngine (events r) =
    match callback_throws onProgress (at_start sink), worker_failure rt with
    | None, Some _ => true
    | _, _ => false
    end /\
  existsb is_reload (events r) =
    match callback_throws onProgress (at_start sink), worker_failure rt,
          engine_constructor rt with
    | None, Some _, None => true
    | _, _, _ => false
    end.
Proof.
  cbv zeta.
  destruct (events_after_start_is_new_MLCEngine rt onProgress) as [Hn Hr].
  destruct (callback_throws onProgress (at_start sink)) as [w|] eqn:Hstart.
  - rewrite initLLM_sink_run, Hstart. cbn [events].
    split; apply existsb_progress_calls; reflexivity.
  - destruct (initLLM_sink_after_start sink rt onProgress h Hstart)
      as (-> & _ & _).
    rewrite initLLM_run. cbv zeta.
    destruct (worker_failure rt) as [why|];
      [destruct (engine_constructor rt) as [why'|];
         [|destruct (snd (main_thread_load rt)) as [why'|]]|];
      cbn [events]; rewrite !existsb_app, Hn, Hr;
      rewrite ?existsb_progress_calls by reflexivity;
      cbn [existsb is_new_MLCEngine is_reload orb];
      rewrite ?existsb_progress_calls by reflexivity;
      rewrite ?orb_true_r; split; reflexivity.
Qed.

(** X2: [initLLM] throws in three cases only. The callback throws at its
    first call: nothing else has been done and the handle is as it was. Or
    the worker path and the fallback both fail: the error is the fallback's,
    the worker's error has only been passed to [console.warn], and if it was
    [new MLCEngine] that threw the handle is as it was. Or the callback
    throws at its last call: by then an engine has been loaded and stored. *)
Theorem initLLM_sink_throws_only
    (sink : ProgressOutcomes) (rt : InitBehaviour)
    (onProgress : option ProgressCallback) (h : Handle) (e : Error) :
  returned (initLLM_sink sink rt onProgress h) = Throw e ->
  let r := initLLM_sink sink rt onProgress h in
  (exists w,
     callback_throws onProgress (at_start sink) = Some w /\
     e = Foreign w /\
     handle r = h /\
     events r =
       progress_calls onProgress [(0%float, "Initialising language model...")]) \/
  (callback_throws onProgress (at_start sink) = None /\
   exists why why',
     worker_failure rt = Some why /\
     e = Foreign why' /\
     In (ConsoleWarn "Web Worker failed, falling back to main thread:"
           (Foreign why))
        (events r) /\
     ((engine_constructor rt = Some why' /\ handle r = h) \/
      (engine_constructor rt = None /\ snd (main_thread_load rt) = Some why'))) \/
  (callback_throws onProgress (at_start sink) = None /\
   exists w eng,
     callback_throws onProgress (at_ready sink) = Some w /\
     e = Foreign w /\
     handle r = Some eng /\
     loaded eng = Some (LLM_MODEL, chat_options) /\
     (worker_failure rt = None \/
      (engine_constructor rt = None /\ snd (main_thread_load rt) = None))).
Proof.
  cbv zeta.
  destruct (callback_throws onProgress (at_start sink)) as [w|] eqn:Hstart.
  - rewrite initLLM_sink_run, Hstart. cbn [returned handle events].
    intros [= <-]. left. exists w. repeat split.
  - destruct (initLLM_sink_after_start sink rt onProgress h Hstart)
      as (-> & -> & ->).
    rewrite initLLM_run. cbv zeta.
    destruct (worker_failure rt) as [why|];
      [destruct (engine_constructor rt) as [why'|];
         [|destruct (snd (main_thread_load rt)) as [why'|]]|];
      cbn [returned handle events].
    + intros He. right. left. split; [reflexivity|].
      exists why, why'.
      assert (e = Foreign why') as ->
        by (destruct (callback_throws onProgress (at_ready sink)); congruence).
      split; [reflexivity|]. split; [reflexivity|]. split.
      * apply in_or_app. right. left. reflexivity.
      * left. split; reflexivity.
    + intros He. right. left. split; [reflexivity|].
      exists why, why'.
      assert (e = Foreign why') as ->
        by (destruct (callback_throws onProgress (at_ready sink)); congruence).
      split; [reflexivity|]. split; [reflexivity|]. split.
      * apply in_or_app. left. apply in_or_app. right. left. reflexivity.
      * right. split; reflexivity.
    + destruct (callback_throws onProgress (at_ready sink)) as [w|];
        [|discriminate].
      intros [= <-]. right. right. split; [reflexivity|].
      exists w, main_thread_engine. repeat split. right. split; reflexivity.
    + destruct (callback_throws onProgress (at_ready sink)) as [w|];
        [|discriminate].
      intros [= <-]. right. right. split; [reflexivity|].
      exists w, worker_engine. repeat split. left. reflexivity.
Qed.

Lemma initLLM_success_engine
    (rt : InitBehaviour) (onProgress : option ProgressCallback) (h : Handle) :
  returned (initLLM rt onProgress h) = Ok tt ->
  exists e,
    handle (initLLM rt onProgress h) = Some e /\
    conversation e = [] /\
    loaded e = Some (LLM_MODEL, chat_options).
Proof.
  rewrite initLLM_run. cbv zeta.
  destruct (worker_failure rt) as [why|].
  - destruct (engine_constructor rt) as [why'|]; [discriminate|].
    destruct (snd (main_thread_load rt)) as [why'|]; [discriminate|].
    intros _. exists main_thread_engine. repeat split.
  - intros _. exists worker_engine. repeat split.
Qed.

(** X3: a successful [initLLM] does not depend on the handle it finds: the
    engine it leaves, the calls it makes and its result are the same whether
    there was an engine before or not, so the previous engine is replaced
    whole. *)
Theorem initLLM_replaces_the_engine
    (rt : InitBehaviour) (onProgress : option ProgressCallback) (h h' : Handle) :
  returned (initLLM rt onProgress h) = Ok tt ->
  initLLM rt onProgress h' = initLLM rt onProgress h /\
  exists e,
    handle (initLLM rt onProgress h) = Some e /\
    conversation e = [] /\
    loaded e = Some (LLM_MODEL, chat_options).
Proof.
  rewrite !initLLM_run. cbv zeta.
  destruct (worker_failure rt) as [why|].
  - destruct (engine_constructor rt) as [why'|]; [discriminate|].
    destruct (snd (main_thread_load rt)) as [why'|]; [discriminate|].
    intros _. split; [reflexivity|].
    exists main_thread_engine. repeat split.
  - intros _. split; [reflexivity|].
    exists worker_engine. repeat split.
Qed.

Lemma filter_progress_calls (onProgress : option ProgressCallback)
    (l : list (JS.number * string)) :
  filter (fun ev => negb (is_progress ev)) (progress_calls onProgress l) = [].
Proof.
  destruct onProgress; [|reflexivity].
  induction l as [|[pc m] l IH]; [reflexivity | exact IH].
Qed.

Lemma filter_progress_worker_events (rt : InitBehaviour)
    (onProgress : option ProgressCallback) :
  filter (fun ev => negb (is_progress ev)) (worker_events rt onProgress)
  = worker_events rt None.
Proof.
  unfold worker_events. destruct (worker_constructor rt); [reflexivity|].
  cbn [filter is_progress negb]. now rewrite filter_progress_calls.
Qed.

(** X4: the progress callback only observes. With or without it,
    [initLLM] returns the same, leaves the same handle and makes the same
    calls on the browser and on web-llm; the callback adds its own calls
    and nothing else. *)
Theorem initLLM_progress_callback_only_observes
    (rt : InitBehaviour) (onProgress : option ProgressCallback) (h : Handle) :
  returned (initLLM rt onProgress h) = returned (initLLM rt None h) /\
  handle (initLLM rt onProgress h) = handle (initLLM rt None h) /\
  filter (fun ev => negb (is_progress ev)) (events (initLLM rt onProgress h))
  = events (initLLM rt None h) /\
  progress_of (events (initLLM rt None h)) = [].
Proof.
  assert (Hnone : forall l, progress_calls None l = []) by reflexivity.
  assert (Hw : progress_of (worker_events rt None) = []).
  { unfold worker_events. destruct (worker_constructor rt); reflexivity. }
  rewrite !initLLM_run. cbv zeta.
  destruct (worker_failure rt) as [why|];
    [destruct (engine_constructor rt) as [why'|];
       [|destruct (snd (main_thread_load rt)) as [why'|]]|];
    cbn [returned handle events];
    (split; [reflexivity|]); (split; [reflexivity|]);
    rewrite ?Hnone; cbn [app]; rewrite ?app_nil_r;
    repeat (rewrite ?filter_app, ?filter_progress_calls,
              ?filter_progress_worker_events;
            cbn [filter is_progress negb app]);
    rewrite ?app_nil_r, ?progress_of_app, ?Hw;
    (split; reflexivity).
Qed.

Lemma Forall_progress_calls (P : Event -> Prop)
    (onProgress : option ProgressCallback) (l : list (JS.number * string)) :
  (forall pc m, P (Progress pc m)) ->
  Forall P (progress_calls onProgress l).
Proof.
  intros HP. destruct onProgress; [|constructor].
  induction l as [|[pc m] l IH]; constructor; [apply HP | exact IH].
Qed.

(** X5: whatever the browser and web-llm do, every worker, engine and load
    [initLLM] asks for is asked for with the module's constants: the worker
    script, the model identifier, the context window size and the 'SILENT'
    log level. *)
Theorem initLLM_uses_the_constants
    (rt : InitBehaviour) (onProgress : option ProgressCallback) (h : Handle) :
  Forall uses_the_constants (events (initLLM rt onProgress h)).
Proof.
  assert (Hp : forall l, Forall uses_the_constants (progress_calls onProgress l)).
  { intros l. apply Forall_progress_calls. intros; exact I. }
  assert (Hw : Forall uses_the_constants (worker_events rt onProgress)).
  { unfold worker_events. constructor; [reflexivity|].
    destruct (worker_constructor rt); [constructor|].
    constructor; [repeat split | apply Hp]. }
  rewrite initLLM_run. cbv zeta.
  destruct (worker_failure rt) as [why|];
    [destruct (engine_constructor rt) as [why'|];
       [|destruct (snd (main_thread_load rt)) as [why'|]]|];
    cbn [events];
    repeat (apply Forall_app; split);
    try apply Hp; try apply Hw;
    repeat constructor.
Qed.

(** ** Further properties of [generate] and [resetChat] *)

Lemma hand_over_prefix (f : TokenCallback) (frs : list string) :
  forall delivered,
    exists rest, frs = (fst (hand_over f delivered frs) ++ rest)%list.
Proof.
  induction frs as [|t frs IH]; intros delivered; cbn [hand_over].
  - exists []. reflexivity.
  - destruct (f delivered t) as [why|].
    + exists frs. reflexivity.
    + destruct (IH (delivered ++ [t])%list) as [rest Hrest].
      destruct (hand_over f (delivered ++ [t])%list frs) as [ts o].
      exists rest. cbn [fst app] in *. now rewrite <- Hrest.
Qed.

Lemma passed_prefix (onToken : option TokenCallback) (frs delivered : list string) :
  exists rest, frs = (fst (passed onToken delivered frs) ++ rest)%list.
Proof.
  destruct onToken as [f|]; [apply hand_over_prefix|].
  exists frs. reflexivity.
Qed.

(** X6: in every run on a ready engine whose request was accepted, the
    fragments handed to [onToken] are an initial part of the non-empty
    fragments of the stream, in stream order, and all of them are handed
    over after the request and before any reset. *)
Theorem generate_hands_over_a_prefix
    (rt : ChatBehaviour) (systemPrompt context query : string)
    (onToken : option TokenCallback) (e : Engine) (strm : ChunkStream) :
  create rt = Resolves strm ->
  let r := generate rt systemPrompt context query onToken (Some e) in
  exists rest tail,
    filter JS.truthy (map chunk_token (chunks strm))
    = (tokens_of (events r) ++ rest)%list /\
    events r
    = (ChatCompletionsCreate (request_for context query)
       :: map Token (tokens_of (events r)) ++ tail)%list /\
    (tail = [] \/ tail = [EngineResetChat]).
Proof.
  intros Hc. cbv zeta. rewrite generate_run. cbv zeta. rewrite Hc.
  destruct (passed_prefix onToken (fragments (chunks strm)) []) as [rest Hrest].
  set (p := passed onToken [] (fragments (chunks strm))) in *.
  assert (Ht : forall tail,
            tokens_of tail = [] ->
            tokens_of (ChatCompletionsCreate (request_for context query)
                       :: map Token (fst p) ++ tail) = fst p).
  { intros tail Htail. cbn [tokens_of].
    now rewrite tokens_of_app, tokens_of_Token, Htail, app_nil_r. }
  assert (Ht0 : tokens_of (ChatCompletionsCreate (request_for context query)
                           :: map Token (fst p)) = fst p).
  { cbn [tokens_of]. apply tokens_of_Token. }
  destruct (snd p) as [why|];
    [|destruct (ending strm) as [|why]; [destruct (reset rt) as [why|]|]];
    cbn [events].
  - exists rest, []. rewrite Ht0, app_nil_r.
    split; [exact Hrest|]. split; [reflexivity | left; reflexivity].
  - exists rest, [EngineResetChat]. rewrite (Ht [EngineResetChat] eq_refl).
    split; [exact Hrest|]. split; [reflexivity | right; reflexivity].
  - exists rest, [EngineResetChat]. rewrite (Ht [EngineResetChat] eq_refl).
    split; [exact Hrest|]. split; [reflexivity | right; reflexivity].
  - exists rest, []. rewrite Ht0, app_nil_r.
    split; [exact Hrest|]. split; [reflexivity | left; reflexivity].
Qed.

Lemma hand_over_stops (f : TokenCallback) (t : string) (post : list string)
    (why : Throwable) (pre : list string) :
  forall delivered,
    (forall i, i < length pre ->
       f (delivered ++ firstn i pre)%list (nth i pre "") = None) ->
    f (delivered ++ pre)%list t = Some why ->
    hand_over f delivered (pre ++ t :: post) = ((pre ++ [t])%list, Some why).
Proof.
  induction pre as [|a pre IH]; intros delivered Hquiet Hthrow.
  - cbn [app hand_over]. rewrite app_nil_r in Hthrow. now rewrite Hthrow.
  - cbn [app hand_over].
    pose proof (Hquiet 0 (Nat.lt_0_succ _)) as H0.
    cbn [firstn nth] in H0. rewrite app_nil_r in H0. rewrite H0.
    rewrite (IH (delivered ++ [a])%list); [reflexivity| |].
    + intros i Hi. specialize (Hquiet (S i) (proj1 (Nat.succ_lt_mono _ _) Hi)).
      cbn [firstn nth] in Hquiet.
      now rewrite <- app_assoc.
    + now rewrite <- app_assoc.
Qed.

(** X7: when [onToken] throws on a fragment, having accepted the ones
    before it, [generate] throws that error; [onToken] has received the
    fragments up to that one and none after it, and the engine has not been
    reset. *)
Theorem generate_stops_when_onToken_throws
    (rt : ChatBehaviour) (systemPrompt context query : string)
    (onToken : TokenCallback) (e : Engine) (strm : ChunkStream)
    (pre post : list string) (t : string) (why : Throwable) :
  create rt = Resolves strm ->
  filter JS.truthy (map chunk_token (chunks strm)) = (pre ++ t :: post)%list ->
  (forall i, i < length pre -> onToken (firstn i pre) (nth i pre "") = None) ->
  onToken pre t = Some why ->
  let r := generate rt systemPrompt context query (Some onToken) (Some e) in
  returned r = Throw (Foreign why) /\
  tokens_of (events r) = (pre ++ [t])%list /\
  resets (events r) = 0.
Proof.
  intros Hc Hfr Hquiet Hthrow. cbv zeta. rewrite generate_run. cbv zeta.
  rewrite Hc. cbn [passed]. unfold fragments. rewrite Hfr.
  rewrite (hand_over_stops onToken t post why pre []); [| exact Hquiet | exact Hthrow].
  cbn [fst snd returned events tokens_of].
  split; [reflexivity|]. split; [apply tokens_of_Token|].
  exact (resets_Token _).
Qed.

Lemma carries_nothing_token (c : ChatCompletionChunk) :
  carries_nothing c = true -> chunk_token c = "".
Proof.
  unfold carries_nothing, chunk_token.
  destruct (choices c) as [|ch rest]; [reflexivity|].
  destruct (delta ch) as [d|]; [|reflexivity].
  destruct (delta_content d) as [s|]; [|reflexivity].
  cbn [JS.or_else]. destruct (JS.truthy s); [discriminate | reflexivity].
Qed.

Lemma fragments_skip (cs1 cs2 : list ChatCompletionChunk)
    (c : ChatCompletionChunk) :
  carries_nothing c = true ->
  fragments (cs1 ++ c :: cs2) = fragments (cs1 ++ cs2).
Proof.
  intros Hc. unfold fragments.
  rewrite !map_app, !filter_app. cbn [map filter].
  now rewrite (carries_nothing_token c Hc).
Qed.

(** X8: a chunk with no choice, no delta, no content or empty content
    leaves no mark: with it anywhere in the stream, [generate] returns the
    same string, makes the same calls and leaves the same engine as without
    it. *)
Theorem generate_skips_chunks_that_carry_nothing
    (cs1 cs2 : list ChatCompletionChunk) (c : ChatCompletionChunk)
    (fin : StreamEnd) (reset_outcome : option Throwable)
    (systemPrompt context query : string)
    (onToken : option TokenCallback) (h : Handle) :
  carries_nothing c = true ->
  generate
    {| create := Resolves {| chunks := cs1 ++ c :: cs2; ending := fin |};
       reset := reset_outcome |}
    systemPrompt context query onToken h
  = generate
      {| create := Resolves {| chunks := cs1 ++ cs2; ending := fin |};
         reset := reset_outcome |}
      systemPrompt context query onToken h.
Proof.
  intros Hc. destruct h as [e|]; [|reflexivity].
  rewrite !generate_run. cbv zeta. cbn [create reset chunks ending].
  now rewrite (fragments_skip cs1 cs2 c Hc).
Qed.

Lemma hand_over_never_throwing (f : TokenCallback) (frs : list string) :
  (forall delivered t, f delivered t = None) ->
  forall delivered, hand_over f delivered frs = (frs, None).
Proof.
  intros Hf. induction frs as [|t frs IH]; intros delivered; cbn [hand_over].
  - reflexivity.
  - now rewrite Hf, IH.
Qed.

Lemma filter_tokens_out (ts : list string) (tail : list Event) :
  filter (fun ev => negb (is_token ev)) (map Token ts ++ tail)
  = filter (fun ev => negb (is_token ev)) tail.
Proof. induction ts as [|t ts IH]; [reflexivity | exact IH]. Qed.

(** X9: an [onToken] that never throws only observes: [generate] returns
    the same string, leaves the same engine and makes the same calls on the
    engine as it does without a callback. *)
Theorem generate_onToken_only_observes
    (rt : ChatBehaviour) (systemPrompt context query : string)
    (onToken : TokenCallback) (h : Handle) :
  (forall delivered t, onToken delivered t = None) ->
  let r := generate rt systemPrompt context query (Some onToken) h in
  let r0 := generate rt systemPrompt context query None h in
  returned r = returned r0 /\
  handle r = handle r0 /\
  filter (fun ev => negb (is_token ev)) (events r) = events r0.
Proof.
  intros Hf. cbv zeta. destruct h as [e|]; [|repeat split].
  rewrite !generate_run. cbv zeta.
  destruct (create rt) as [strm|why]; [|repeat split].
  cbn [passed]. rewrite (hand_over_never_throwing onToken _ Hf).
  cbn [fst snd map app].
  destruct (ending strm) as [|why]; [destruct (reset rt) as [why|]|];
    cbn [returned handle events filter is_token negb];
    (split; [reflexivity|]); (split; [reflexivity|]);
    f_equal.
  - apply filter_tokens_out.
  - apply filter_tokens_out.
  - rewrite <- (app_nil_r (map Token _)). apply filter_tokens_out.
Qed.

(** X10: [generate] fails with the 'LLM not initialised' error exactly
    when there is no engine handle; with a handle, whatever the engine and
    the callback throw, that error is never the result. *)
Theorem generate_not_initialised_iff_no_engine
    (rt : ChatBehaviour) (systemPrompt context query : string)
    (onToken : option TokenCallback) (h : Handle) :
  returned (generate rt systemPrompt context query onToken h)
  = Throw LLM_not_initialised
  <-> h = None.
Proof.
  split.
  - destruct h as [e|]; [|reflexivity].
    rewrite generate_run. cbv zeta.
    destruct (create rt) as [strm|why]; [|discriminate].
    destruct (snd (passed onToken [] (fragments (chunks strm)))); [discriminate|].
    destruct (ending strm); [|discriminate].
    destruct (reset rt); discriminate.
  - intros ->. reflexivity.
Qed.

(** X11: neither [generate] nor [resetChat] ever creates, drops, moves or
    reloads the engine: on every exit path the handle is absent if it was
    absent, and otherwise holds an engine on the same host with the same
    model loaded. *)
Theorem generate_and_resetChat_keep_the_engine
    (rt : ChatBehaviour) (systemPrompt context query : string)
    (onToken : option TokenCallback) (outcome : option Throwable) (h : Handle) :
  same_engine h (handle (generate rt systemPrompt context query onToken h)) /\
  same_engine h (handle (resetChat outcome h)).
Proof.
  destruct h as [e|]; [|split; exact I].
  split.
  - rewrite generate_run. cbv zeta.
    destruct (create rt) as [strm|why]; [|split; reflexivity].
    destruct (snd (passed onToken [] (fragments (chunks strm))));
      [split; reflexivity|].
    destruct (ending strm); [|split; reflexivity].
    destruct (reset rt); split; reflexivity.
  - destruct outcome; split; reflexivity.
Qed.

(** X12: a successful [initLLM] followed by a [generate] whose stream runs
    to its end gives the concatenated fragments and leaves the engine
    exactly as [initLLM] left it: nothing of the turn is retained. *)
Theorem initLLM_then_generate
    (init : InitBehaviour) (onProgress : option ProgressCallback) (h : Handle)
    (chat : ChatBehaviour) (systemPrompt context query : string)
    (onToken : option TokenCallback) (strm : ChunkStream) :
  returned (initLLM init onProgress h) = Ok tt ->
  create chat = Resolves strm ->
  ending strm = Done ->
  snd (passed onToken [] (fragments (chunks strm))) = None ->
  reset chat = None ->
  let ready := handle (initLLM init onProgress h) in
  let r := generate chat systemPrompt context query onToken ready in
  returned r = Ok (join (filter JS.truthy (map chunk_token (chunks strm)))) /\
  handle r = ready /\
  resets (events r) = 1.
Proof.
  intros Hinit Hc He Hp Hr. cbv zeta.
  destruct (initLLM_success_engine init onProgress h Hinit)
    as (e & Hh & Hconv & _).
  rewrite Hh, generate_run. cbv zeta. rewrite Hc, Hp, He, Hr.
  cbn [returned handle events].
  split; [reflexivity|]. split.
  - unfold cleared, retaining. destruct e as [ho lo co].
    cbn [host loaded conversation] in *. now subst co.
  - change (resets (map Token
              (fst (passed onToken [] (fragments (chunks strm))))
            ++ [EngineResetChat]) = 1).
    now rewrite resets_app, resets_Token.
Qed.

End LLM.

(** ** Sample runs *)

(** The scenario of the specification: three fragments among empty chunks. *)
Example generate_lunch :
  let r :=
    generate 256%float 0.5%float lunch_stream "unused"
      "Policy: lunch starts at 12:00." "When does lunch start?"
      (Some quiet_onToken) (Some ready_engine) in
  returned r = Ok "Lunch starts at 12:00." /\
  tokens_of (events r) = ["Lunch "; "starts "; "at 12:00."] /\
  resets (events r) = 1 /\
  handle r = Some ready_engine.
Proof. vm_compute. repeat split. Qed.

(** C1, as stated, fails: the stream breaks after its first fragment, the
    error reaches the caller, and [engine.resetChat()] was never called; the
    engine still retains the request. *)
Lemma generate_no_reset_when_stream_breaks :
  let r :=
    generate 256%float 0.5%float broken_stream "unused"
      "Policy: lunch starts at 12:00." "When does lunch start?"
      (Some quiet_onToken) (Some ready_engine) in
  returned r = Throw (Foreign "network error") /\
  tokens_of (events r) = ["Lunch "] /\
  resets (events r) = 0 /\
  (exists e, handle r = Some e /\ conversation e <> []).
Proof.
  vm_compute. repeat split.
  eexists. split; [reflexivity | discriminate].
Qed.

Lemma generate_resets_only_on_completion_witness :
  let r :=
    generate 256%float 0.5%float broken_stream "unused"
      "Policy: lunch starts at 12:00." "When does lunch start?"
      (Some quiet_onToken) (Some ready_engine) in
  returned r = Throw (Foreign "network error") /\
  resets (events r) = 0 /\
  handle r =
  Some (retaining
          (messages (request_for 256%float 0.5%float
                       "Policy: lunch starts at 12:00." "When does lunch start?"))
          ready_engine).
Proof.
  exact (proj2 (proj2 (proj2
           (generate_resets_only_on_completion 256%float 0.5%float
              broken_stream "unused"
              "Policy: lunch starts at 12:00." "When does lunch start?"
              (Some quiet_onToken) ready_engine)))
           {| chunks := [ chunk_of "Lunch " ]; ending := Fails "network error" |}
           "network error" eq_refl eq_refl eq_refl).
Defined.

Lemma generate_returns_concatenation_witness :
  let r :=
    generate 256%float 0.5%float lunch_stream "unused"
      "Policy: lunch starts at 12:00." "When does lunch start?"
      (Some quiet_onToken) (Some ready_engine) in
  returned r = Ok "Lunch starts at 12:00." /\
  "Lunch starts at 12:00." = join (tokens_of (events r)) /\
  Forall (fun t => t <> "") (tokens_of (events r)) /\
  exists strm,
    create lunch_stream = Resolves strm /\ ending strm = Done /\
    tokens_of (events r) = filter JS.truthy (map chunk_token (chunks strm)).
Proof.
  split; [reflexivity|].
  apply (generate_returns_concatenation 256%float 0.5%float lunch_stream
           "unused" "Policy: lunch starts at 12:00." "When does lunch start?"
           quiet_onToken (Some ready_engine) "Lunch starts at 12:00.").
  reflexivity.
Defined.

(** C5, as stated, fails: the worker load reports 50% and crashes, the
    main-thread load starts again at 25%; [initLLM] succeeds, the percents
    delivered go down from 50 to 25, and the last message is not 'ready'. *)
Lemma initLLM_progress_goes_backwards :
  let r := initLLM "model" 2048%float worker_crash (Some progress_callback) None in
  returned r = Ok tt /\
  progress_of (events r) =
    [ (0%float, "Initialising language model...");
      (50%float, "Fetching param cache");
      (25%float, "Fetching param cache");
      (100%float, "Finish loading");
      (100%float, "Language model ready") ] /\
  nondecreasing (map fst (progress_of (events r))) = false /\
  last (progress_of (events r)) (0%float, "") <> (100%float, "ready").
Proof.
  vm_compute. repeat split. discriminate.
Qed.

Lemma initLLM_progress_sequence_witness :
  let r := initLLM "model" 2048%float worker_loads (Some progress_callback) None in
  returned r = Ok tt /\
  progress_of (events r) =
    [ (0%float, "Initialising language model...");
      (25%float, "Fetching param cache");
      (50%float, "Loading GPU shader modules");
      (100%float, "Finish loading");
      (100%float, "Language model ready") ] /\
  nondecreasing (map fst (progress_of (events r))) = true.
Proof.
  split; [reflexivity|].
  destruct (initLLM_progress_sequence "model" 2048%float worker_loads
              progress_callback None eq_refl) as [Hseq Hmono].
  split; [exact Hseq|].
  apply Hmono; reflexivity.
Defined.

(** C6, as stated, fails: the worker load crashes, the main-thread engine
    is built and loaded, the event at 100 is delivered, and the callback
    throws on it; [initLLM] does not complete successfully although the
    fallback succeeded. *)
Lemma initLLM_throws_after_a_successful_fallback :
  let r :=
    initLLM_sink "model" 2048%float throws_when_ready worker_crash
      (Some progress_callback) None in
  worker_failure worker_crash = Some "worker crashed" /\
  engine_constructor worker_crash = None /\
  snd (main_thread_load worker_crash) = None /\
  handle r = Some (main_thread_engine "model" 2048%float) /\
  last (events r) (ConsoleLog "") = Progress 100%float "Language model ready" /\
  returned r = Throw (Foreign "progress callback failed").
Proof.
  vm_compute. repeat split.
Qed.

Lemma initLLM_sink_falls_back_witness :
  let r :=
    initLLM_sink "model" 2048%float returns_normally worker_crash
      (Some progress_callback) None in
  handle r = Some (main_thread_engine "model" 2048%float) /\
  returned r = Ok tt /\
  exists earlier,
    events r = (earlier ++ [Progress 100%float "Language model ready"])%list.
Proof.
  pose proof (initLLM_sink_falls_back "model" 2048%float returns_normally
                worker_crash (Some progress_callback) None "worker crashed"
                eq_refl eq_refl) as H.
  cbv zeta in H.
  cbn [worker_crash engine_constructor main_thread_load snd] in H.
  destruct H as (_ & Hhandle & Hret & Hlast).
  split; [exact Hhandle|]. split; [exact Hret|].
  exact (Hlast progress_callback eq_refl).
Defined.

Lemma initLLM_failure_leaves_unloaded_engine_witness :
  let r := initLLM "model" 2048%float both_fail None None in
  returned r = Throw (Foreign "out of memory") /\
  handle r = Some unloaded_engine /\
  returned
    (generate 256%float 0.5%float lunch_stream "unused"
       "Policy: lunch starts at 12:00." "When does lunch start?" None (handle r))
  <> Throw LLM_not_initialised.
Proof.
  destruct (initLLM_failure_leaves_unloaded_engine "model" 256%float 0.5%float
              2048%float both_fail None None "Worker is not defined" "out of memory"
              eq_refl eq_refl eq_refl) as (Hret & Hhandle & Hgen).
  split; [exact Hret|]. split; [exact Hhandle|].
  apply Hgen.
Defined.

(** ** The further properties on sample runs *)

Lemma initLLM_sink_throws_only_witness :
  let r := initLLM_sink "model" 2048%float throws_at_once worker_loads
             (Some progress_callback) (Some ready_engine) in
  returned r = Throw (Foreign "progress callback failed") /\
  handle r = Some ready_engine /\
  events r = [Progress 0%float "Initialising language model..."].
Proof.
  split; [reflexivity|].
  destruct (initLLM_sink_throws_only "model" 2048%float throws_at_once
              worker_loads (Some progress_callback) (Some ready_engine)
              (Foreign "progress callback failed") eq_refl)
    as [(w & _ & _ & Hhandle & Hevents) | [[H _] | [H _]]].
  - split; [exact Hhandle | exact Hevents].
  - discriminate H.
  - discriminate H.
Defined.

Lemma initLLM_replaces_the_engine_witness :
  initLLM "model" 2048%float worker_crash None None
  = initLLM "model" 2048%float worker_crash None (Some ready_engine) /\
  exists e,
    handle (initLLM "model" 2048%float worker_crash None (Some ready_engine))
    = Some e /\
    conversation e = [] /\
    loaded e = Some ("model", chat_options 2048%float).
Proof.
  apply (initLLM_replaces_the_engine "model" 2048%float worker_crash None
           (Some ready_engine) None).
  reflexivity.
Defined.

Lemma generate_hands_over_a_prefix_witness :
  let r :=
    generate 256%float 0.5%float lunch_stream "unused"
      "Policy: lunch starts at 12:00." "When does lunch start?"
      (Some onToken_failing_second) (Some ready_engine) in
  exists rest tail,
    filter JS.truthy (map chunk_token lunch_chunks)
    = (tokens_of (events r) ++ rest)%list /\
    events r
    = (ChatCompletionsCreate
         (request_for 256%float 0.5%float
            "Policy: lunch starts at 12:00." "When does lunch start?")
       :: map Token (tokens_of (events r)) ++ tail)%list /\
    (tail = [] \/ tail = [EngineResetChat]).
Proof.
  exact (generate_hands_over_a_prefix 256%float 0.5%float lunch_stream "unused"
           "Policy: lunch starts at 12:00." "When does lunch start?"
           (Some onToken_failing_second) ready_engine
           {| chunks := lunch_chunks; ending := Done |} eq_refl).
Defined.

Lemma generate_stops_when_onToken_throws_witness :
  let r :=
    generate 256%float 0.5%float lunch_stream "unused"
      "Policy: lunch starts at 12:00." "When does lunch start?"
      (Some onToken_failing_second) (Some ready_engine) in
  returned r = Throw (Foreign "render failed") /\
  tokens_of (events r) = ["Lunch "; "starts "] /\
  resets (events r) = 0.
Proof.
  apply (generate_stops_when_onToken_throws 256%float 0.5%float lunch_stream
           "unused" "Policy: lunch starts at 12:00." "When does lunch start?"
           onToken_failing_second ready_engine
           {| chunks := lunch_chunks; ending := Done |}
           ["Lunch "] ["at 12:00."] "starts " "render failed").
  - reflexivity.
  - reflexivity.
  - intros i Hi. destruct i as [|i]; [reflexivity|].
    simpl in Hi. lia.
  - reflexivity.
Defined.

Lemma generate_skips_chunks_that_carry_nothing_witness :
  generate 256%float 0.5%float
    {| create :=
         Resolves {| chunks := [chunk_of "Lunch "] ++ chunk_without_choices
                               :: [chunk_of "starts "];
                     ending := Done |};
       reset := None |}
    "unused" "Policy: lunch starts at 12:00." "When does lunch start?"
    (Some quiet_onToken) (Some ready_engine)
  = generate 256%float 0.5%float
      {| create :=
           Resolves {| chunks := [chunk_of "Lunch "] ++ [chunk_of "starts "];
                       ending := Done |};
         reset := None |}
      "unused" "Policy: lunch starts at 12:00." "When does lunch start?"
      (Some quiet_onToken) (Some ready_engine).
Proof.
  apply (generate_skips_chunks_that_carry_nothing 256%float 0.5%float
           [chunk_of "Lunch "] [chunk_of "starts "] chunk_without_choices).
  reflexivity.
Defined.

Lemma generate_onToken_only_observes_witness :
  let r :=
    generate 256%float 0.5%float lunch_stream "unused"
      "Policy: lunch starts at 12:00." "When does lunch start?"
      (Some quiet_onToken) (Some ready_engine) in
  let r0 :=
    generate 256%float 0.5%float lunch_stream "unused"
      "Policy: lunch starts at 12:00." "When does lunch start?"
      None (Some ready_engine) in
  returned r = returned r0 /\
  handle r = handle r0 /\
  filter (fun ev => negb (is_token ev)) (events r) = events r0.
Proof.
  apply (generate_onToken_only_observes 256%float 0.5%float lunch_stream
           "unused" "Policy: lunch starts at 12:00." "When does lunch start?"
           quiet_onToken (Some ready_engine)).
  reflexivity.
Defined.

Lemma initLLM_then_generate_witness :
  let ready := handle (initLLM "model" 2048%float worker_loads None None) in
  let r :=
    generate 256%float 0.5%float lunch_stream "unused"
      "Policy: lunch starts at 12:00." "When does lunch start?"
      (Some quiet_onToken) ready in
  returned r = Ok (join (filter JS.truthy (map chunk_token lunch_chunks))) /\
  handle r = ready /\
  resets (events r) = 1.
Proof.
  exact (initLLM_then_generate "model" 256%float 0.5%float 2048%float
           worker_loads None None lunch_stream
           "unused" "Policy: lunch starts at 12:00." "When does lunch start?"
           (Some quiet_onToken) {| chunks := lunch_chunks; ending := Done |}
           eq_refl eq_refl eq_refl eq_refl eq_refl).
Defined.

(** ** The message bubble *)

Section MessageBubbleProperties.

Import Components.

Variable Date : Type.
Variable toLocaleTimeString : Date -> string -> TimeOptions -> string.
Variable toFixed : JS.number -> nat -> string.

Local Abbreviation Message := (Components.Message Date).
Local Abbreviation render := (Components.MessageBubble toLocaleTimeString toFixed).
Local Abbreviation formattedTime m :=
  (toLocaleTimeString (timestamp m) "en-GB"
     {| hour := "2-digit"; minute := "2-digit" |}).

Lemma visible_text_map_with_index {A : Type} (f : A -> nat -> JSX)
    (g : A -> list string) (l : list A) :
  (forall a i, visible_text (f a i) = g a) ->
  forall i, flat_map visible_text (map_with_index f i l) = flat_map g l.
Proof.
  intros Hfg. induction l as [|a l IH]; intros i; cbn [map_with_index flat_map].
  - reflexivity.
  - now rewrite Hfg, IH.
Qed.

Lemma handlers_map_with_index {A : Type} (f : A -> nat -> JSX) (l : list A) :
  (forall a i, handlers (f a i) = []) ->
  forall i, flat_map handlers (map_with_index f i l) = [].
Proof.
  intros Hf. induction l as [|a l IH]; intros i; cbn [map_with_index flat_map].
  - reflexivity.
  - now rewrite Hf, IH.
Qed.

(** X13: a user's message, and any message while it is streaming, shows
    its content and its time and nothing else: no source, no context chunk
    and nothing to click, whatever the message carries. *)
Theorem MessageBubble_user_or_streaming
    (message : Message) (showContext : bool) :
  role message = "user" \/ isStreaming message = Some true ->
  visible_text (render message showContext)
  = [content message; formattedTime message] /\
  handlers (render message showContext) = [].
Proof.
  intros H. unfold MessageBubble, not_streaming.
  destruct H as [Hu|Hs].
  - rewrite Hu. cbn [String.eqb Ascii.eqb Bool.eqb negb andb].
    cbn. destruct (isStreaming message) as [[|]|]; split; reflexivity.
  - rewrite Hs.
    destruct (String.eqb (role message) "user");
      destruct (sources message) as [ss|];
      destruct (contextChunks message) as [cs|];
      cbn [negb andb]; rewrite ?andb_false_r; split; reflexivity.
Qed.

(** X14: an assistant's message that is not streaming shows, in this
    order: its content; if it has sources, the heading and one line per
    source, in order; if it has context chunks, the toggle with their
    number and, only while [showContext] is set, each chunk's source,
    section, score and content, in order; and its time. *)
Theorem MessageBubble_assistant_text
    (message : Message) (showContext : bool) :
  role message <> "user" ->
  isStreaming message <> Some true ->
  visible_text (render message showContext)
  = (content message
     :: match sources message with
        | Some (s :: ss) => "Sources:" :: flat_map source_text (s :: ss)
        | _ => []
        end
     ++ match contextChunks message with
        | Some (c :: cs) =>
            "View context used ("
            :: NilEmpty.string_of_uint (Nat.to_uint (length (c :: cs)))
            :: " chunks)"
            :: (if showContext then flat_map (chunk_text toFixed) (c :: cs)
                else [])
        | _ => []
        end
     ++ [formattedTime message])%list.
Proof.
  intros Hrole Hstream. unfold MessageBubble, not_streaming.
  apply String.eqb_neq in Hrole. rewrite Hrole. cbn [negb].
  assert (Hs : match isStreaming message with
               | Some true => false
               | _ => true
               end = true).
  { destruct (isStreaming message) as [[|]|]; [contradiction Hstream|..];
      reflexivity. }
  rewrite Hs.
  assert (Hcursor : visible_text
                      match isStreaming message with
                      | Some true =>
                          element "span"
                            [className
                               "inline-block w-2 h-4 ml-1 bg-habs-gold animate-pulse"]
                            []
                      | _ => nothing
                      end = []).
  { destruct (isStreaming message) as [[|]|]; reflexivity. }
  cbn [visible_text flat_map app]. rewrite Hcursor. cbn [app].
  f_equal.
  destruct (sources message) as [[|s ss]|];
    destruct (contextChunks message) as [[|c cs]|];
    cbn [length Nat.ltb Nat.leb andb visible_text flat_map app];
    rewrite ?app_nil_r;
    rewrite ?(visible_text_map_with_index _ source_text) by reflexivity;
    try reflexivity.
  all: destruct showContext; cbn [visible_text flat_map app];
    rewrite ?app_nil_r;
      rewrite ?(visible_text_map_with_index _ (chunk_text toFixed)) by reflexivity;
      rewrite <- ?app_assoc; try reflexivity.
Qed.

Lemma handlers_toggle (message : Message) (showContext : bool)
    (c : ContextChunk) (cs : list ContextChunk) :
  role message <> "user" ->
  isStreaming message <> Some true ->
  contextChunks message = Some (c :: cs) ->
  handlers (render message showContext) = [setShowContext (negb showContext)].
Proof.
  intros Hrole Hstream Hchunks. unfold MessageBubble, not_streaming.
  apply String.eqb_neq in Hrole. rewrite Hrole, Hchunks. cbn [negb].
  assert (Hs : match isStreaming message with
               | Some true => false
               | _ => true
               end = true).
  { destruct (isStreaming message) as [[|]|]; [contradiction Hstream|..];
      reflexivity. }
  rewrite Hs.
  assert (Hcursor : handlers
                      match isStreaming message with
                      | Some true =>
                          element "span"
                            [className
                               "inline-block w-2 h-4 ml-1 bg-habs-gold animate-pulse"]
                            []
                      | _ => nothing
                      end = []).
  { destruct (isStreaming message) as [[|]|]; reflexivity. }
  cbn [handlers flat_map app length Nat.ltb Nat.leb andb].
  rewrite Hcursor. cbn [app].
  destruct (sources message) as [[|s ss]|];
    cbn [length Nat.ltb Nat.leb andb handlers flat_map app];
    rewrite ?handlers_map_with_index by reflexivity;
    destruct showContext; cbn [handlers flat_map app negb];
    rewrite ?handlers_map_with_index by reflexivity;
    reflexivity.
Qed.

(** X15: on an assistant's message that is not streaming and has context
    chunks there is exactly one thing to click, and it flips
    [showContext]: starting from the initial state the chunks are shown
    after an odd number of clicks and hidden after an even number. *)
Theorem MessageBubble_toggle
    (message : Message) (c : ContextChunk) (cs : list ContextChunk) (n : nat) :
  role message <> "user" ->
  isStreaming message <> Some true ->
  contextChunks message = Some (c :: cs) ->
  (forall showContext,
     handlers (render message showContext)
     = [setShowContext (negb showContext)]) /\
  Nat.iter n (click (render message)) initial_showContext = Nat.odd n.
Proof.
  intros Hrole Hstream Hchunks.
  assert (Hh : forall showContext,
            handlers (render message showContext)
            = [setShowContext (negb showContext)]).
  { intros showContext. now apply handlers_toggle with (c := c) (cs := cs). }
  split; [exact Hh|].
  induction n as [|n IH].
  - reflexivity.
  - rewrite Nat.iter_succ, IH. unfold click. rewrite Hh. cbn [dispatch].
    now rewrite Nat.odd_succ, <- Nat.negb_odd.
Qed.

End MessageBubbleProperties.

(** ** The message bubble on sample messages *)

Lemma MessageBubble_user_or_streaming_witness :
  Components.visible_text
    (Components.MessageBubble Components.sample_toLocaleTimeString
       Components.sample_toFixed Components.sample_question false)
  = ["When does lunch start?"; "12:05"] /\
  Components.handlers
    (Components.MessageBubble Components.sample_toLocaleTimeString
       Components.sample_toFixed Components.sample_question false)
  = [].
Proof.
  apply (MessageBubble_user_or_streaming nat Components.sample_toLocaleTimeString
           Components.sample_toFixed Components.sample_question false).
  left. reflexivity.
Defined.

Lemma MessageBubble_assistant_text_witness :
  Components.visible_text
    (Components.MessageBubble Components.sample_toLocaleTimeString
       Components.sample_toFixed Components.sample_answer true)
  = [ "Lunch starts at 12:00.";
      "Sources:"; "•"; "Lunch policy"; " — "; "Timing";
      "View context used ("; "1"; " chunks)";
      "Lunch policy"; " — "; "Timing"; "88"; "% match";
      "Lunch starts at 12:00.";
      "12:05" ].
Proof.
  apply (MessageBubble_assistant_text nat Components.sample_toLocaleTimeString
           Components.sample_toFixed Components.sample_answer true);
    discriminate.
Defined.

Lemma MessageBubble_toggle_witness :
  (forall showContext,
     Components.handlers
       (Components.MessageBubble Components.sample_toLocaleTimeString
          Components.sample_toFixed Components.sample_answer showContext)
     = [Components.setShowContext (negb showContext)]) /\
  Nat.iter 3
    (Components.click
       (Components.MessageBubble Components.sample_toLocaleTimeString
          Components.sample_toFixed Components.sample_answer))
    Components.initial_showContext
  = Nat.odd 3.
Proof.
  apply (MessageBubble_toggle nat Components.sample_toLocaleTimeString
           Components.sample_toFixed Components.sample_answer
           Components.sample_chunk [] 3);
    [discriminate | discriminate | reflexivity].
Defined.
